(** * devops-test: the demo HTTP server and the Azure Monitor set-up script

    A shallow embedding of [src/index.js] (the request handler of the demo
    server) with its test [src/index.test.js], of [monitoring-setup.ps1]
    (the provisioning workflow) and of [infrastructure.sh] (the deployment
    that comes before it), with the properties the specification states
    about them and further properties of the code.

    The PowerShell script is a sequence of calls of the native [az] command
    inside one [try]/[catch].  It is embedded as a computation in a state and
    exception monad: the state holds the cloud behind [az], the list of [az]
    commands issued so far, the lines written with [Write-Status] and the
    script's variables; an exception is a [throw] or a strict-mode error,
    both of which end in the [catch] block and [exit 1]. *)

From Stdlib Require Import ZArith Ascii DecimalString DecimalN.
From stdpp Require Import base option list strings gmap fin_maps.

Local Open Scope Z_scope.

(** stdpp keeps [simpl] from unfolding string concatenation; the scripts below
    are mostly string interpolation, so let it compute on literal prefixes. *)
Local Arguments String.append !_ _ / : simpl nomatch.

(** ** Characters and strings that cannot be written as literals *)

Definition dquote : string := String (Ascii.ascii_of_nat 34) EmptyString.
Definition backslash : string := String (Ascii.ascii_of_nat 92) EmptyString.
Definition LF : string := String (Ascii.ascii_of_nat 10) EmptyString.

Fixpoint concat_lines (ls : list string) : string :=
  match ls with
  | [] => EmptyString
  | l :: ls => l +:+ LF +:+ concat_lines ls
  end.

(** Is [p] a prefix of [s]? *)
Fixpoint starts_with (p s : string) : bool :=
  match p, s with
  | EmptyString, _ => true
  | String a p, String b s => bool_decide (a = b) && starts_with p s
  | String _ _, EmptyString => false
  end.

(** ** The demo server: [src/index.js] *)

Module DemoServer.

(** What the handler reads besides the request: the clock
    ([new Date().toISOString()]), [process.version] and
    [process.env.NODE_ENV]. *)
Record Env := {
  timestamp : string;
  process_version : string;
  NODE_ENV : option string
}.

Record Request := { url : string; method : string }.

(** [res.writeHead(status, headers)] followed by [res.end(body)]. *)
Record Response := {
  statusCode : Z;
  headers : list (string * string);
  body : string
}.

(** [JSON.stringify] on a string: the quoting of ECMA-262 QuoteJSONString,
    on a string of bytes. *)
Definition hex_digit (n : N) : ascii :=
  if (n <? 10)%N then Ascii.ascii_of_N (48 + n) else Ascii.ascii_of_N (87 + n).

Definition quote_char (c : ascii) : string :=
  let n := Ascii.N_of_ascii c in
  if (n =? 34)%N then backslash +:+ dquote
  else if (n =? 92)%N then backslash +:+ backslash
  else if (n =? 8)%N then backslash +:+ "b"
  else if (n =? 12)%N then backslash +:+ "f"
  else if (n =? 10)%N then backslash +:+ "n"
  else if (n =? 13)%N then backslash +:+ "r"
  else if (n =? 9)%N then backslash +:+ "t"
  else if (n <? 32)%N then
    backslash +:+ "u00" +:+
    String (hex_digit (n / 16)) (String (hex_digit (n mod 16)) EmptyString)
  else String c EmptyString.

Fixpoint quote_chars (s : string) : string :=
  match s with
  | EmptyString => EmptyString
  | String c s => quote_char c +:+ quote_chars s
  end.

Definition QuoteJSONString (s : string) : string :=
  dquote +:+ quote_chars s +:+ dquote.

(** [JSON.stringify] on an object literal whose values are strings: the
    properties in insertion order, no white space. *)
Fixpoint stringify_members (o : list (string * string)) : string :=
  match o with
  | [] => EmptyString
  | [(k, v)] => QuoteJSONString k +:+ ":" +:+ QuoteJSONString v
  | (k, v) :: o => QuoteJSONString k +:+ ":" +:+ QuoteJSONString v +:+ "," +:+ stringify_members o
  end.

Definition JSON_stringify (o : list (string * string)) : string :=
  "{" +:+ stringify_members o +:+ "}".

(** The bytes of U+1F680 in the page's heading. *)
Definition rocket : string :=
  String (Ascii.ascii_of_nat 240) (String (Ascii.ascii_of_nat 159)
    (String (Ascii.ascii_of_nat 154) (String (Ascii.ascii_of_nat 128) EmptyString))).

(** [process.env.NODE_ENV || 'development']: an unset variable and an empty
    one are both falsy. *)
Definition environment_name (e : Env) : string :=
  match NODE_ENV e with
  | Some (String c s) => String c s
  | Some EmptyString | None => "development"
  end.

(** The template literal of the [/] route. *)
Definition index_page (e : Env) : string :=
  LF +:+ concat_lines [
    "      <!DOCTYPE html>";
    "      <html>";
    "        <head>";
    "          <title>DevOps Test App</title>";
    "          <style>";
    "            body { font-family: Arial, sans-serif; max-width: 800px; margin: 50px auto; padding: 20px; }";
    "            h1 { color: #0078d4; }";
    "            .info { background: #f0f0f0; padding: 15px; border-radius: 5px; }";
    "          </style>";
    "        </head>";
    "        <body>";
    "          <h1>" +:+ rocket +:+ " DevOps Test App</h1>";
    "          <p>Successfully deployed to Azure App Service!</p>";
    "          <div class=" +:+ dquote +:+ "info" +:+ dquote +:+ ">";
    "            <p><strong>Server Time:</strong> " +:+ timestamp e +:+ "</p>";
    "            <p><strong>Node Version:</strong> " +:+ process_version e +:+ "</p>";
    "            <p><strong>Environment:</strong> " +:+ environment_name e +:+ "</p>";
    "          </div>";
    "        </body>";
    "      </html>"
  ] +:+ "    ".

(** The callback given to [http.createServer]. *)
Definition handler (e : Env) (req : Request) : Response :=
  let timestamp := timestamp e in
  if bool_decide (url req = "/health") then
    {| statusCode := 200;
       headers := [("Content-Type", "application/json")];
       body := JSON_stringify [("status", "healthy"); ("timestamp", timestamp)] |}
  else if bool_decide (url req = "/") then
    {| statusCode := 200;
       headers := [("Content-Type", "text/html")];
       body := index_page e |}
  else
    {| statusCode := 404;
       headers := [("Content-Type", "application/json")];
       body := JSON_stringify [("error", "Not Found")] |}.

(** The status as a function of the url alone. *)
Definition status_of_url (u : string) : Z :=
  if bool_decide (u = "/health") then 200
  else if bool_decide (u = "/") then 200
  else 404.

(** The text that opens the body of the [/health] route, and the body of the
    404 answer. *)
Definition health_prefix : string :=
  "{" +:+ dquote +:+ "status" +:+ dquote +:+ ":" +:+ dquote +:+ "healthy" +:+ dquote +:+ ",".

Definition not_found_body : string :=
  "{" +:+ dquote +:+ "error" +:+ dquote +:+ ":" +:+ dquote +:+ "Not Found" +:+ dquote +:+ "}".

(** The page of the [/] route as the browser receives it, written out as
    one text around the three values that the template interpolates. *)
Definition html_page (server_time node_version environment : string) : string :=
  "
      <!DOCTYPE html>
      <html>
        <head>
          <title>DevOps Test App</title>
          <style>
            body { font-family: Arial, sans-serif; max-width: 800px; margin: 50px auto; padding: 20px; }
            h1 { color: #0078d4; }
            .info { background: #f0f0f0; padding: 15px; border-radius: 5px; }
          </style>
        </head>
        <body>
          <h1>🚀 DevOps Test App</h1>
          <p>Successfully deployed to Azure App Service!</p>
          <div class=" +:+ dquote +:+ "info" +:+ dquote +:+ ">
            <p><strong>Server Time:</strong> " +:+ server_time +:+ "</p>
            <p><strong>Node Version:</strong> " +:+ node_version +:+ "</p>
            <p><strong>Environment:</strong> " +:+ environment +:+ "</p>
          </div>
        </body>
      </html>
    ".

(** An environment to run the handler in. *)
Definition env0 : Env :=
  {| timestamp := "2025-12-01T20:00:00.000Z"; process_version := "v22.11.0"; NODE_ENV := None |}.

End DemoServer.

(** ** The monitoring set-up: [monitoring-setup.ps1] *)

Module Monitoring.

(** *** Data *)

(** What [ConvertFrom-Json] makes of the JSON object that [az] prints: an
    object with named properties.  The script reads only string-valued
    properties ([name], [id], [appServicePlanId], [connectionString]). *)
Abbreviation PSObject := (gmap string string).

(** The arguments of [az monitor metrics alert create], as the script
    writes them. *)
Record MetricsAlert := {
  ma_name : string;
  ma_resource_group : string;
  ma_scopes : string;
  ma_condition : string;
  ma_window_size : string;
  ma_evaluation_frequency : string;
  ma_severity : Z;
  ma_description : string;
  ma_action : string
}.

(** The arguments of [az monitor diagnostic-settings create]. *)
Record DiagnosticSettings := {
  ds_name : string;
  ds_resource : string;
  ds_workspace : string;
  ds_logs : string;
  ds_metrics : string
}.

(** The [az] command lines the script can issue. *)
Inductive AzCommand :=
| AccountShow
| WebappShow (name resource_group : string)
| LogAnalyticsWorkspaceCreate (resource_group workspace_name location : string) (retention_time : Z)
| LogAnalyticsWorkspaceShow (resource_group workspace_name : string)
| AppInsightsComponentCreate (app location resource_group workspace application_type : string)
| AppInsightsComponentShow (app resource_group : string)
| WebappConfigAppsettingsSet (name resource_group : string) (settings : list (string * string))
| ActionGroupCreate (resource_group name short_name : string) (action : list string)
| ActionGroupShow (resource_group name : string)
| MetricsAlertCreate (a : MetricsAlert)
| DiagnosticSettingsCreate (d : DiagnosticSettings).

#[global] Instance MetricsAlert_eq_dec : EqDecision MetricsAlert.
Proof. solve_decision. Defined.
#[global] Instance DiagnosticSettings_eq_dec : EqDecision DiagnosticSettings.
Proof. solve_decision. Defined.
#[global] Instance AzCommand_eq_dec : EqDecision AzCommand.
Proof. solve_decision. Defined.

(** Commands that only read ([show]) against commands that create or change
    a resource ([create], [set]). *)
Definition is_show (c : AzCommand) : bool :=
  match c with
  | AccountShow | WebappShow _ _ | LogAnalyticsWorkspaceShow _ _
  | AppInsightsComponentShow _ _ | ActionGroupShow _ _ => true
  | _ => false
  end.

Definition alerts_of (t : list AzCommand) : list MetricsAlert :=
  omap (λ c, match c with MetricsAlertCreate a => Some a | _ => None end) t.

Definition diagnostics_of (t : list AzCommand) : list DiagnosticSettings :=
  omap (λ c, match c with DiagnosticSettingsCreate d => Some d | _ => None end) t.

(** *** Parameters: the [param] block *)

(** The arguments on the command line; [-Location] may be left out. *)
Record Invocation := {
  arg_ResourceGroupName : string;
  arg_WebAppName : string;
  arg_Location : option string;
  arg_AlertEmailAddress : string
}.

Record Params := {
  ResourceGroupName : string;
  WebAppName : string;
  Location : string;
  AlertEmailAddress : string
}.

Definition is_empty (s : string) : bool :=
  match s with EmptyString => true | _ => false end.

Definition binding_error (name : string) : string :=
  "Cannot bind argument to parameter '" +:+ name +:+ "' because it is an empty string.".

(** Parameter binding.  The three [Mandatory] parameters are [string]s
    without [AllowEmptyString]: PowerShell refuses an empty argument for
    them before the script body starts.  No parameter carries a validation
    attribute.  [Location] defaults to [eastus]. *)
Definition bind_parameters (a : Invocation) : string + Params :=
  if is_empty (arg_ResourceGroupName a) then inl (binding_error "ResourceGroupName")
  else if is_empty (arg_WebAppName a) then inl (binding_error "WebAppName")
  else if is_empty (arg_AlertEmailAddress a) then inl (binding_error "AlertEmailAddress")
  else inr {| ResourceGroupName := arg_ResourceGroupName a;
              WebAppName := arg_WebAppName a;
              Location := default "eastus" (arg_Location a);
              AlertEmailAddress := arg_AlertEmailAddress a |}.

(** The parameters of the body when binding goes through. *)
Definition params_of (a : Invocation) : Params :=
  {| ResourceGroupName := arg_ResourceGroupName a;
     WebAppName := arg_WebAppName a;
     Location := default "eastus" (arg_Location a);
     AlertEmailAddress := arg_AlertEmailAddress a |}.

(** *** Naming conventions (lines 60-63) *)

Record Names := {
  logAnalyticsName : string;
  appInsightsName : string;
  actionGroupName : string
}.

Definition deriveNames (WebAppName : string) : Names :=
  {| logAnalyticsName := "log-" +:+ WebAppName;
     appInsightsName := "appi-" +:+ WebAppName;
     actionGroupName := "ag-" +:+ WebAppName +:+ "-alerts" |}.

(** *** The script's state *)

(** The script's variables; [None] is an unset variable or [$null]. *)
Record Vars := {
  account : option PSObject;
  webApp : option PSObject;
  webAppResourceId : option string;
  logAnalytics : option PSObject;
  appInsights : option PSObject;
  actionGroup : option PSObject;
  appServicePlanId : option string
}.

Definition no_vars : Vars :=
  {| account := None; webApp := None; webAppResourceId := None;
     logAnalytics := None; appInsights := None; actionGroup := None;
     appServicePlanId := None |}.

Definition set_account v (x : Vars) : Vars :=
  {| account := v; webApp := webApp x; webAppResourceId := webAppResourceId x;
     logAnalytics := logAnalytics x; appInsights := appInsights x;
     actionGroup := actionGroup x; appServicePlanId := appServicePlanId x |}.
Definition set_webApp v (x : Vars) : Vars :=
  {| account := account x; webApp := v; webAppResourceId := webAppResourceId x;
     logAnalytics := logAnalytics x; appInsights := appInsights x;
     actionGroup := actionGroup x; appServicePlanId := appServicePlanId x |}.
Definition set_webAppResourceId v (x : Vars) : Vars :=
  {| account := account x; webApp := webApp x; webAppResourceId := v;
     logAnalytics := logAnalytics x; appInsights := appInsights x;
     actionGroup := actionGroup x; appServicePlanId := appServicePlanId x |}.
Definition set_logAnalytics v (x : Vars) : Vars :=
  {| account := account x; webApp := webApp x; webAppResourceId := webAppResourceId x;
     logAnalytics := v; appInsights := appInsights x;
     actionGroup := actionGroup x; appServicePlanId := appServicePlanId x |}.
Definition set_appInsights v (x : Vars) : Vars :=
  {| account := account x; webApp := webApp x; webAppResourceId := webAppResourceId x;
     logAnalytics := logAnalytics x; appInsights := v;
     actionGroup := actionGroup x; appServicePlanId := appServicePlanId x |}.
Definition set_actionGroup v (x : Vars) : Vars :=
  {| account := account x; webApp := webApp x; webAppResourceId := webAppResourceId x;
     logAnalytics := logAnalytics x; appInsights := appInsights x;
     actionGroup := v; appServicePlanId := appServicePlanId x |}.
Definition set_appServicePlanId v (x : Vars) : Vars :=
  {| account := account x; webApp := webApp x; webAppResourceId := webAppResourceId x;
     logAnalytics := logAnalytics x; appInsights := appInsights x;
     actionGroup := actionGroup x; appServicePlanId := v |}.

(** A line written with [Write-Host]: the text and [-ForegroundColor]. *)
Record HostLine := { text : string; color : option string }.

Section Script.

(** The cloud account behind [az] and what a command does to it: the new
    state of the cloud and the JSON object on the standard output, if
    any.  A failing [az] prints nothing on the standard output; as a
    native command its exit code does not raise an error in PowerShell,
    whatever [$ErrorActionPreference] is, so that the script learns of a
    failure only from a [show] that prints nothing.  (The two commands of
    the precondition check discard the standard error with [2>$null]; where
    a PowerShell turns that into an error, the run ends in the same [catch]
    block as through the [throw] that follows.) *)
Context {Cloud : Type}.
Variable az : AzCommand → Cloud → option PSObject * Cloud.

Record State := {
  cloud : Cloud;
  trace : list AzCommand;
  host : list HostLine;
  vars : Vars
}.

(** A computation: the state it leaves and either the message of the
    error that ended it or its value. *)
Definition M (A : Type) : Type := State → (string + A) * State.

#[global] Instance M_ret : MRet M := λ A (a : A) s, (inr a, s).
#[global] Instance M_bind : MBind M := λ A B (f : A → M B) (m : M A) s,
  match m s with
  | (inr a, s') => f a s'
  | (inl e, s') => (inl e, s')
  end.

Definition throw {A} (msg : string) : M A := λ s, (inl msg, s).

Definition Write_Host (t : string) (c : option string) : M unit := λ s,
  (inr (), {| cloud := cloud s; trace := trace s;
              host := host s ++ [{| text := t; color := c |}];
              vars := vars s |}).

(** The helper [Write-Status] (lines 50-58).  The script calls it with
    [Success], with [Error] or without [-Type], which is [Info]. *)
Definition Write_Status (Message : string) (Type_ : string) : M unit :=
  if bool_decide (Type_ = "Success") then Write_Host ("✓ " +:+ Message) (Some "Green")
  else if bool_decide (Type_ = "Warning") then Write_Host ("⚠ " +:+ Message) (Some "Yellow")
  else if bool_decide (Type_ = "Error") then Write_Host ("✗ " +:+ Message) (Some "Red")
  else Write_Host ("→ " +:+ Message) (Some "Cyan").

(** [az ... | ConvertFrom-Json]: the command is run and its output
    parsed; no output gives [$null]. *)
Definition az_json (c : AzCommand) : M (option PSObject) := λ s,
  let '(out, cl) := az c (cloud s) in
  (inr out, {| cloud := cl; trace := trace s ++ [c]; host := host s; vars := vars s |}).

(** [az ... --output none]: the command is run for its effect. *)
Definition az_run (c : AzCommand) : M unit := λ s,
  let '(_, cl) := az c (cloud s) in
  (inr (), {| cloud := cl; trace := trace s ++ [c]; host := host s; vars := vars s |}).

Definition read {A} (f : Vars → A) : M A := λ s, (inr (f (vars s)), s).

Definition assign (f : Vars → Vars) : M unit := λ s,
  (inr (), {| cloud := cloud s; trace := trace s; host := host s; vars := f (vars s) |}).

(** [$o.name] under [Set-StrictMode -Version Latest]: an error when [$o]
    is [$null] or has no such property. *)
Definition property_error (name : string) : string :=
  "The property '" +:+ name +:+ "' cannot be found on this object. Verify that the property exists.".

Definition property (o : option PSObject) (name : string) : M string :=
  match o with
  | Some obj =>
      match obj !! name with
      | Some v => mret v
      | None => throw (property_error name)
      end
  | None => throw (property_error name)
  end.

(** [-not $o]: an object is true, [$null] is false. *)
Definition not_ (o : option PSObject) : bool :=
  match o with Some _ => false | None => true end.

(** [$name] under strict mode: an error when the variable is not set. *)
Definition variable_error (name : string) : string :=
  "The variable '$" +:+ name +:+ "' cannot be retrieved because it has not been set.".

Definition variable (f : Vars → option string) (name : string) : M string := λ s,
  match f (vars s) with
  | Some v => (inr v, s)
  | None => (inl (variable_error name), s)
  end.

(** *** The body of the [try] block *)

(** Lines 68-83. *)
Definition verify_preconditions (p : Params) : M unit :=
  Write_Status "Verifying Azure CLI authentication..." "Info";;
  out ← az_json AccountShow;
  assign (set_account out);;
  account ← read account;
  (if not_ account
   then throw "Not logged into Azure CLI. Please run 'az login' first."
   else mret ());;
  name ← property account "name";
  Write_Status ("Using subscription: " +:+ name) "Success";;
  Write_Status "Verifying Web App exists..." "Info";;
  out ← az_json (WebappShow (WebAppName p) (ResourceGroupName p));
  assign (set_webApp out);;
  webApp ← read webApp;
  (if not_ webApp
   then throw ("Web App '" +:+ WebAppName p +:+ "' not found in resource group '"
               +:+ ResourceGroupName p +:+ "'.")
   else mret ());;
  id ← property webApp "id";
  assign (set_webAppResourceId (Some id));;
  Write_Status ("Found Web App: " +:+ WebAppName p) "Success".

(** Lines 85-97. *)
Definition create_log_analytics (p : Params) : M unit :=
  let n := deriveNames (WebAppName p) in
  Write_Status ("Creating Log Analytics Workspace: " +:+ logAnalyticsName n +:+ "...") "Info";;
  az_run (LogAnalyticsWorkspaceCreate (ResourceGroupName p) (logAnalyticsName n) (Location p) 30);;
  out ← az_json (LogAnalyticsWorkspaceShow (ResourceGroupName p) (logAnalyticsName n));
  assign (set_logAnalytics out);;
  Write_Status "Log Analytics Workspace created" "Success".

(** Lines 99-112. *)
Definition create_app_insights (p : Params) : M unit :=
  let n := deriveNames (WebAppName p) in
  Write_Status ("Creating Application Insights: " +:+ appInsightsName n +:+ "...") "Info";;
  logAnalytics ← read logAnalytics;
  workspace ← property logAnalytics "id";
  az_run (AppInsightsComponentCreate (appInsightsName n) (Location p) (ResourceGroupName p)
            workspace "web");;
  out ← az_json (AppInsightsComponentShow (appInsightsName n) (ResourceGroupName p));
  assign (set_appInsights out);;
  Write_Status "Application Insights created" "Success".

(** Lines 114-124. *)
Definition configure_app_service (p : Params) : M unit :=
  Write_Status "Configuring App Service with Application Insights..." "Info";;
  appInsights ← read appInsights;
  connectionString ← property appInsights "connectionString";
  az_run (WebappConfigAppsettingsSet (WebAppName p) (ResourceGroupName p)
            [("APPLICATIONINSIGHTS_CONNECTION_STRING", connectionString);
             ("ApplicationInsightsAgent_EXTENSION_VERSION", "~3");
             ("XDT_MicrosoftApplicationInsights_Mode", "Recommended")]);;
  Write_Status "App Service configured with Application Insights" "Success".

(** Lines 126-142. *)
Definition create_action_group (p : Params) : M unit :=
  let n := deriveNames (WebAppName p) in
  Write_Status ("Creating Action Group: " +:+ actionGroupName n +:+ "...") "Info";;
  az_run (ActionGroupCreate (ResourceGroupName p) (actionGroupName n) "AppAlerts"
            ["email"; "AdminEmail"; AlertEmailAddress p]);;
  out ← az_json (ActionGroupShow (ResourceGroupName p) (actionGroupName n));
  assign (set_actionGroup out);;
  actionGroup ← read actionGroup;
  (if not_ actionGroup then throw "Failed to create Action Group" else mret ());;
  Write_Status "Action Group created" "Success".

(** Lines 144-147. *)
Definition get_app_service_plan (p : Params) : M unit :=
  Write_Status "Getting App Service Plan..." "Info";;
  webApp ← read webApp;
  planId ← property webApp "appServicePlanId";
  assign (set_appServicePlanId (Some planId));;
  Write_Status "Found App Service Plan" "Success".

(** One [az monitor metrics alert create] call: the scope is the value of
    the variable [scope_var]; the action is [$actionGroup.id]. *)
Definition create_alert (p : Params) (name : string)
    (scope_var : Vars → option string) (scope_name : string)
    (condition : string) (severity : Z) (description : string) : M unit :=
  scopes ← variable scope_var scope_name;
  actionGroup ← read actionGroup;
  action ← property actionGroup "id";
  az_run (MetricsAlertCreate
            {| ma_name := name;
               ma_resource_group := ResourceGroupName p;
               ma_scopes := scopes;
               ma_condition := condition;
               ma_window_size := "5m";
               ma_evaluation_frequency := "1m";
               ma_severity := severity;
               ma_description := description;
               ma_action := action |}).

(** Lines 149-207. *)
Definition create_alert_rules (p : Params) : M unit :=
  Write_Status "Creating CPU percentage alert rule..." "Info";;
  create_alert p ("alert-cpu-high-" +:+ WebAppName p)
    appServicePlanId "appServicePlanId"
    "avg CpuPercentage > 80" 2 "Alert when CPU exceeds 80% for 5 minutes";;
  Write_Status "CPU alert rule created (threshold: 80%)" "Success";;
  Write_Status "Creating memory percentage alert rule..." "Info";;
  create_alert p ("alert-memory-high-" +:+ WebAppName p)
    appServicePlanId "appServicePlanId"
    "avg MemoryPercentage > 85" 2 "Alert when memory exceeds 85% for 5 minutes";;
  Write_Status "Memory alert rule created (threshold: 85%)" "Success";;
  Write_Status "Creating HTTP 5xx error alert rule..." "Info";;
  create_alert p ("alert-http5xx-" +:+ WebAppName p)
    webAppResourceId "webAppResourceId"
    "total Http5xx > 10" 1 "Alert when HTTP 5xx errors exceed 10 in 5 minutes";;
  Write_Status "HTTP 5xx alert rule created (threshold: 10 errors)" "Success";;
  Write_Status "Creating response time alert rule..." "Info";;
  create_alert p ("alert-response-time-" +:+ WebAppName p)
    webAppResourceId "webAppResourceId"
    "avg HttpResponseTime > 5" 3 "Alert when average response time exceeds 5 seconds";;
  Write_Status "Response time alert rule created (threshold: 5s)" "Success".

(** The two JSON arguments of lines 211-212.  They are single-quoted in
    the script, so each quotation mark keeps its backslash. *)
Definition Q : string := backslash +:+ dquote.

Definition logsConfig : string :=
  "[{" +:+ Q +:+ "category" +:+ Q +:+ ":" +:+ Q +:+ "AppServiceHTTPLogs" +:+ Q +:+ ","
       +:+ Q +:+ "enabled" +:+ Q +:+ ":true},{"
       +:+ Q +:+ "category" +:+ Q +:+ ":" +:+ Q +:+ "AppServiceConsoleLogs" +:+ Q +:+ ","
       +:+ Q +:+ "enabled" +:+ Q +:+ ":true},{"
       +:+ Q +:+ "category" +:+ Q +:+ ":" +:+ Q +:+ "AppServiceAppLogs" +:+ Q +:+ ","
       +:+ Q +:+ "enabled" +:+ Q +:+ ":true}]".

Definition metricsConfig : string :=
  "[{" +:+ Q +:+ "category" +:+ Q +:+ ":" +:+ Q +:+ "AllMetrics" +:+ Q +:+ ","
       +:+ Q +:+ "enabled" +:+ Q +:+ ":true}]".

(** Lines 209-221. *)
Definition enable_diagnostics (p : Params) : M unit :=
  Write_Status "Enabling diagnostic settings..." "Info";;
  resource ← variable webAppResourceId "webAppResourceId";
  logAnalytics ← read logAnalytics;
  workspace ← property logAnalytics "id";
  az_run (DiagnosticSettingsCreate
            {| ds_name := "diag-" +:+ WebAppName p;
               ds_resource := resource;
               ds_workspace := workspace;
               ds_logs := logsConfig;
               ds_metrics := metricsConfig |});;
  Write_Status "Diagnostic settings enabled" "Success".

(** Lines 223-244. *)
Definition rule_line : string := "============================================".

Definition summary (p : Params) : M unit :=
  let n := deriveNames (WebAppName p) in
  Write_Host EmptyString None;;
  Write_Host rule_line (Some "Green");;
  Write_Host "Monitoring Setup Complete!" (Some "Green");;
  Write_Host rule_line (Some "Green");;
  Write_Host EmptyString None;;
  Write_Host "Resources Created:" None;;
  Write_Host ("  • Log Analytics Workspace: " +:+ logAnalyticsName n) None;;
  Write_Host ("  • Application Insights: " +:+ appInsightsName n) None;;
  Write_Host ("  • Action Group: " +:+ actionGroupName n) None;;
  Write_Host EmptyString None;;
  Write_Host "Alert Rules Created:" None;;
  Write_Host "  • CPU > 80% (Severity 2)" None;;
  Write_Host "  • Memory > 85% (Severity 2)" None;;
  Write_Host "  • HTTP 5xx > 10 errors (Severity 1)" None;;
  Write_Host "  • Response Time > 5s (Severity 3)" None;;
  Write_Host EmptyString None;;
  Write_Host ("Alerts will be sent to: " +:+ AlertEmailAddress p) None;;
  Write_Host EmptyString None;;
  Write_Host "View in Azure Portal:" None;;
  id ← variable webAppResourceId "webAppResourceId";
  Write_Host ("  https://portal.azure.com/#@/resource" +:+ id +:+ "/monitoring") None;;
  Write_Host rule_line (Some "Green").

(** The [try] block, lines 65-245. *)
Definition script (p : Params) : M unit :=
  Write_Status ("Starting Azure Monitor setup for " +:+ WebAppName p +:+ "...") "Info";;
  verify_preconditions p;;
  create_log_analytics p;;
  create_app_insights p;;
  configure_app_service p;;
  create_action_group p;;
  get_app_service_plan p;;
  create_alert_rules p;;
  enable_diagnostics p;;
  summary p.

(** What a run leaves: the exit code of the process, the message of the
    error that ended it, if any, and the final state. *)
Record RunResult := {
  exit_code : Z;
  error : option string;
  final : State
}.

Definition initial (c : Cloud) : State :=
  {| cloud := c; trace := []; host := []; vars := no_vars |}.

(** [try { ... } catch { Write-Status "Error: ..." -Type "Error"; exit 1 }] *)
Definition run (p : Params) (c : Cloud) : RunResult :=
  match script p (initial c) with
  | (inr _, s) => {| exit_code := 0; error := None; final := s |}
  | (inl msg, s) =>
      {| exit_code := 1; error := Some msg;
         final := (Write_Status ("Error: " +:+ msg) "Error" s).2 |}
  end.

(** The script as invoked from the command line: parameter binding, then
    the body. *)
Definition invoke (a : Invocation) (c : Cloud) : RunResult :=
  match bind_parameters a with
  | inr p => run p c
  | inl msg => {| exit_code := 1; error := Some msg; final := initial c |}
  end.

(** The weakest precondition of a computation, for a postcondition [Q] on
    normal termination and [E] on an error. *)
Definition wp {A} (m : M A) (Q : A → State → Prop) (E : string → State → Prop)
    (s : State) : Prop :=
  match m s with
  | (inr a, s') => Q a s'
  | (inl e, s') => E e s'
  end.

End Script.

Arguments State : clear implicits.
Arguments RunResult : clear implicits.

(** *** The specification's reading of a run *)

(** The script has no result value: a run ends with an exit code, after the
    [az] commands it issued.  The specification's three-way status is read
    from these: exit code 0 is [Success]; a failed run that issued nothing
    but [show] commands touched no resource and is a [Failure]; a failed run
    that issued a [create] or a [set] is a [PartialFailure]. *)
Inductive Status := Success | PartialFailure | Failure.

Definition status {Cloud} (r : RunResult Cloud) : Status :=
  if bool_decide (exit_code r = 0) then Success
  else if forallb is_show (trace (final r)) then Failure
  else PartialFailure.

(** A decimal number. *)
Fixpoint digits (s : string) (acc : N) : option N :=
  match s with
  | EmptyString => Some acc
  | String c s =>
      match Ascii.is_nat c with
      | Some d => digits s (10 * acc + N.of_nat d)
      | None => None
      end
  end.

Definition parse_number (s : string) : option N :=
  if is_empty s then None else digits s 0.

(** The durations that [--window-size] and [--evaluation-frequency] take,
    [##h##m##s], in seconds. *)
Fixpoint duration_go (s : string) (num : option N) (total : N) : option N :=
  match s with
  | EmptyString => match num with None => Some total | Some _ => None end
  | String c s =>
      match Ascii.is_nat c, num with
      | Some d, _ => duration_go s (Some (10 * default 0%N num + N.of_nat d)%N) total
      | None, Some n =>
          if bool_decide (c = "h"%char) then duration_go s None (total + 3600 * n)%N
          else if bool_decide (c = "m"%char) then duration_go s None (total + 60 * n)%N
          else if bool_decide (c = "s"%char) then duration_go s None (total + n)%N
          else None
      | None, None => None
      end
  end.

Definition duration_seconds (s : string) : option N :=
  if is_empty s then None else duration_go s None 0%N.

Inductive Aggregation := avg | total.

Definition parse_aggregation (s : string) : option Aggregation :=
  if bool_decide (s = "avg") then Some avg
  else if bool_decide (s = "total") then Some total
  else None.

(** The specification's AlertRuleSpec; durations in seconds. *)
Record AlertRuleSpec := {
  name : string;
  scopeResourceId : string;
  metricName : string;
  aggregation : Aggregation;
  operator : string;
  threshold : N;
  evaluationWindow : N;
  evaluationFrequency : N;
  severity : Z;
  description : string;
  notificationTargetId : string
}.

(** An [az monitor metrics alert create] command line read as an
    AlertRuleSpec: [--condition] is "aggregation metric operator threshold". *)
Definition alert_rule_spec (a : MetricsAlert) : option AlertRuleSpec :=
  match String.words (ma_condition a) with
  | [agg; metric; op; thr] =>
      agg ← parse_aggregation agg;
      thr ← parse_number thr;
      window ← duration_seconds (ma_window_size a);
      frequency ← duration_seconds (ma_evaluation_frequency a);
      Some {| name := ma_name a;
              scopeResourceId := ma_scopes a;
              metricName := metric;
              aggregation := agg;
              operator := op;
              threshold := thr;
              evaluationWindow := window;
              evaluationFrequency := frequency;
              severity := ma_severity a;
              description := ma_description a;
              notificationTargetId := ma_action a |}
  | _ => None
  end.

(** The commands of a run that goes through every step, given what the
    [show] commands print: the identifiers of the application, its plan, the
    workspace and the action group, and the connection string. *)
Definition expected_alerts (p : Params) (appId planId agId : string) : list MetricsAlert :=
  [{| ma_name := "alert-cpu-high-" +:+ WebAppName p;
      ma_resource_group := ResourceGroupName p;
      ma_scopes := planId;
      ma_condition := "avg CpuPercentage > 80";
      ma_window_size := "5m"; ma_evaluation_frequency := "1m";
      ma_severity := 2;
      ma_description := "Alert when CPU exceeds 80% for 5 minutes";
      ma_action := agId |};
   {| ma_name := "alert-memory-high-" +:+ WebAppName p;
      ma_resource_group := ResourceGroupName p;
      ma_scopes := planId;
      ma_condition := "avg MemoryPercentage > 85";
      ma_window_size := "5m"; ma_evaluation_frequency := "1m";
      ma_severity := 2;
      ma_description := "Alert when memory exceeds 85% for 5 minutes";
      ma_action := agId |};
   {| ma_name := "alert-http5xx-" +:+ WebAppName p;
      ma_resource_group := ResourceGroupName p;
      ma_scopes := appId;
      ma_condition := "total Http5xx > 10";
      ma_window_size := "5m"; ma_evaluation_frequency := "1m";
      ma_severity := 1;
      ma_description := "Alert when HTTP 5xx errors exceed 10 in 5 minutes";
      ma_action := agId |};
   {| ma_name := "alert-response-time-" +:+ WebAppName p;
      ma_resource_group := ResourceGroupName p;
      ma_scopes := appId;
      ma_condition := "avg HttpResponseTime > 5";
      ma_window_size := "5m"; ma_evaluation_frequency := "1m";
      ma_severity := 3;
      ma_description := "Alert when average response time exceeds 5 seconds";
      ma_action := agId |}].

Definition expected_diagnostics (p : Params) (appId wsId : string) : DiagnosticSettings :=
  {| ds_name := "diag-" +:+ WebAppName p;
     ds_resource := appId;
     ds_workspace := wsId;
     ds_logs := logsConfig;
     ds_metrics := metricsConfig |}.

Definition steps_1_to_5 (p : Params) (wsId cs : string) : list AzCommand :=
  [AccountShow;
   WebappShow (WebAppName p) (ResourceGroupName p);
   LogAnalyticsWorkspaceCreate (ResourceGroupName p)
     (logAnalyticsName (deriveNames (WebAppName p))) (Location p) 30;
   LogAnalyticsWorkspaceShow (ResourceGroupName p)
     (logAnalyticsName (deriveNames (WebAppName p)));
   AppInsightsComponentCreate (appInsightsName (deriveNames (WebAppName p)))
     (Location p) (ResourceGroupName p) wsId "web";
   AppInsightsComponentShow (appInsightsName (deriveNames (WebAppName p)))
     (ResourceGroupName p);
   WebappConfigAppsettingsSet (WebAppName p) (ResourceGroupName p)
     [("APPLICATIONINSIGHTS_CONNECTION_STRING", cs);
      ("ApplicationInsightsAgent_EXTENSION_VERSION", "~3");
      ("XDT_MicrosoftApplicationInsights_Mode", "Recommended")];
   ActionGroupCreate (ResourceGroupName p)
     (actionGroupName (deriveNames (WebAppName p))) "AppAlerts"
     ["email"; "AdminEmail"; AlertEmailAddress p];
   ActionGroupShow (ResourceGroupName p)
     (actionGroupName (deriveNames (WebAppName p)))].

Definition complete_trace (p : Params) (appId planId wsId cs agId : string) : list AzCommand :=
  steps_1_to_5 p wsId cs
  ++ (MetricsAlertCreate <$> expected_alerts p appId planId agId)
  ++ [DiagnosticSettingsCreate (expected_diagnostics p appId wsId)].

(** What the provider does when a list of commands is issued in order: the
    cloud that the commands leave, and what the [n]-th of them prints, issued
    after the ones before it. *)
Definition cloud_after {Cloud} (az : AzCommand → Cloud → option PSObject * Cloud)
    (t : list AzCommand) (c : Cloud) : Cloud :=
  foldl (λ c cmd, (az cmd c).2) c t.

Definition output_at {Cloud} (az : AzCommand → Cloud → option PSObject * Cloud)
    (t : list AzCommand) (n : nat) (c : Cloud) : option PSObject :=
  match t !! n with
  | Some cmd => (az cmd (cloud_after az (take n t) c)).1
  | None => None
  end.

(** The [n]-th command of [t] prints an object with the value [v] for the
    property [name]. *)
Definition answers {Cloud} (az : AzCommand → Cloud → option PSObject * Cloud)
    (t : list AzCommand) (c : Cloud) (n : nat) (name v : string) : Prop :=
  ∃ obj, output_at az t n c = Some obj ∧ obj !! name = Some v.

(** Steps 1 to 4 succeed: the caller is logged in, [az webapp show] prints
    the application with its identifier, and the [show] commands of steps 2
    and 3 print the workspace with its identifier and the Application
    Insights component with its connection string. *)
Definition steps_1_to_4_succeed {Cloud} (az : AzCommand → Cloud → option PSObject * Cloud)
    (p : Params) (c : Cloud) (appId wsId cs : string) : Prop :=
  (∃ subscription, answers az (steps_1_to_5 p wsId cs) c 0 "name" subscription)
  ∧ answers az (steps_1_to_5 p wsId cs) c 1 "id" appId
  ∧ answers az (steps_1_to_5 p wsId cs) c 3 "id" wsId
  ∧ answers az (steps_1_to_5 p wsId cs) c 5 "connectionString" cs.

(** The columns of the specification's table of alert rules. *)
Definition table_row (s : AlertRuleSpec) : string * Aggregation * string * N * N * N * Z :=
  (metricName s, aggregation s, operator s, threshold s,
   evaluationWindow s, evaluationFrequency s, severity s).

(** The window of an alert rule is at least its frequency. *)
Definition window_covers_frequency (a : MetricsAlert) : Prop :=
  ∃ s, alert_rule_spec a = Some s
       ∧ (evaluationFrequency s ≤ evaluationWindow s)%N
       ∧ evaluationWindow s = 300%N ∧ evaluationFrequency s = 60%N.

(** The JSON that [--logs] and [--metrics] take, with the quoting of the
    script: one object per category, each enabled. *)
Definition category_enabled (c : string) : string :=
  "{" +:+ Q +:+ "category" +:+ Q +:+ ":" +:+ Q +:+ c +:+ Q +:+ ","
      +:+ Q +:+ "enabled" +:+ Q +:+ ":true}".

Definition categories_json (cs : list string) : string :=
  "[" +:+ String.concat "," (category_enabled <$> cs) +:+ "]".

(** The address given to [-AlertEmailAddress] is what an action group is
    created with. *)
Definition forwards_email (addr : string) (c : AzCommand) : Prop :=
  match c with
  | ActionGroupCreate _ _ _ action => action = ["email"; "AdminEmail"; addr]
  | _ => True
  end.

(** A syntactically valid address, as far as the specification goes: one
    [@] with text before it and after it, and no blank. *)
Fixpoint count_char (c : ascii) (s : string) : nat :=
  match s with
  | EmptyString => 0
  | String d s => (if bool_decide (c = d) then 1 else 0) + count_char c s
  end.

Definition valid_email (s : string) : bool :=
  match s with
  | EmptyString => false
  | String c _ =>
      bool_decide (count_char "@"%char s = 1%nat)
      && negb (bool_decide (c = "@"%char))
      && negb (starts_with "@" (String.rev s))
      && bool_decide (count_char " "%char s = 0%nat)
  end.

End Monitoring.

(** ** A reference cloud

    The provider behind [az] is not part of the repository.  For the
    properties that speak of what a run leaves in the cloud, and as a
    concrete cloud to run the script against, this is a model of the
    provider's contract: resources are kept per kind, keyed by resource group
    and name, and [create] on an existing key replaces the resource in place
    (the provider's PUT).  It accepts every notification address. *)

Module Mock.
Import Monitoring.

Record MockCloud := {
  mc_account : option PSObject;
  mc_webapps : gmap (string * string) PSObject;
  mc_appsettings : gmap (string * string) (gmap string string);
  mc_workspaces : gmap (string * string) PSObject;
  mc_components : gmap (string * string) PSObject;
  mc_action_groups : gmap (string * string) PSObject;
  mc_alerts : gmap (string * string) MetricsAlert;
  mc_diagnostics : gmap (string * string) DiagnosticSettings
}.

Definition resource_id (resource_group provider name : string) : string :=
  "/subscriptions/0000/resourceGroups/" +:+ resource_group +:+ "/providers/" +:+ provider
    +:+ "/" +:+ name.

Definition workspace_descriptor (rg name location : string) : PSObject :=
  <["id" := resource_id rg "Microsoft.OperationalInsights/workspaces" name]>
    {["name" := name; "location" := location]}.

Definition component_descriptor (rg app location workspace : string) : PSObject :=
  <["connectionString" := "InstrumentationKey=" +:+ app]>
    (<["id" := resource_id rg "microsoft.insights/components" app]>
       {["name" := app; "location" := location; "workspaceResourceId" := workspace]}).

Definition action_group_descriptor (rg name short_name : string) : PSObject :=
  <["id" := resource_id rg "microsoft.insights/actionGroups" name]>
    {["name" := name; "groupShortName" := short_name]}.

Definition settings_map (settings : list (string * string)) : gmap string string :=
  list_to_map settings.

(** What [az] does: nothing when nobody is logged in; otherwise a [show]
    looks the resource up and a [create] or [set] writes it under its key. *)
Definition mock_az (c : AzCommand) (m : MockCloud) : option PSObject * MockCloud :=
  match mc_account m with
  | None => (None, m)
  | Some acct =>
      match c with
      | AccountShow => (Some acct, m)
      | WebappShow name rg => (mc_webapps m !! (rg, name), m)
      | LogAnalyticsWorkspaceCreate rg name location _ =>
          let o := workspace_descriptor rg name location in
          (Some o,
           {| mc_account := mc_account m; mc_webapps := mc_webapps m;
              mc_appsettings := mc_appsettings m;
              mc_workspaces := <[(rg, name) := o]> (mc_workspaces m);
              mc_components := mc_components m; mc_action_groups := mc_action_groups m;
              mc_alerts := mc_alerts m; mc_diagnostics := mc_diagnostics m |})
      | LogAnalyticsWorkspaceShow rg name => (mc_workspaces m !! (rg, name), m)
      | AppInsightsComponentCreate app location rg workspace _ =>
          let o := component_descriptor rg app location workspace in
          (Some o,
           {| mc_account := mc_account m; mc_webapps := mc_webapps m;
              mc_appsettings := mc_appsettings m;
              mc_workspaces := mc_workspaces m;
              mc_components := <[(rg, app) := o]> (mc_components m);
              mc_action_groups := mc_action_groups m;
              mc_alerts := mc_alerts m; mc_diagnostics := mc_diagnostics m |})
      | AppInsightsComponentShow app rg => (mc_components m !! (rg, app), m)
      | WebappConfigAppsettingsSet name rg settings =>
          match mc_webapps m !! (rg, name) with
          | None => (None, m)
          | Some _ =>
              let old := default ∅ (mc_appsettings m !! (rg, name)) in
              let new := settings_map settings ∪ old in
              (Some new,
               {| mc_account := mc_account m; mc_webapps := mc_webapps m;
                  mc_appsettings := <[(rg, name) := new]> (mc_appsettings m);
                  mc_workspaces := mc_workspaces m;
                  mc_components := mc_components m;
                  mc_action_groups := mc_action_groups m;
                  mc_alerts := mc_alerts m; mc_diagnostics := mc_diagnostics m |})
          end
      | ActionGroupCreate rg name short_name _ =>
          let o := action_group_descriptor rg name short_name in
          (Some o,
           {| mc_account := mc_account m; mc_webapps := mc_webapps m;
              mc_appsettings := mc_appsettings m;
              mc_workspaces := mc_workspaces m;
              mc_components := mc_components m;
              mc_action_groups := <[(rg, name) := o]> (mc_action_groups m);
              mc_alerts := mc_alerts m; mc_diagnostics := mc_diagnostics m |})
      | ActionGroupShow rg name => (mc_action_groups m !! (rg, name), m)
      | MetricsAlertCreate a =>
          (Some {["name" := ma_name a]},
           {| mc_account := mc_account m; mc_webapps := mc_webapps m;
              mc_appsettings := mc_appsettings m;
              mc_workspaces := mc_workspaces m;
              mc_components := mc_components m;
              mc_action_groups := mc_action_groups m;
              mc_alerts := <[(ma_resource_group a, ma_name a) := a]> (mc_alerts m);
              mc_diagnostics := mc_diagnostics m |})
      | DiagnosticSettingsCreate d =>
          (Some {["name" := ds_name d]},
           {| mc_account := mc_account m; mc_webapps := mc_webapps m;
              mc_appsettings := mc_appsettings m;
              mc_workspaces := mc_workspaces m;
              mc_components := mc_components m;
              mc_action_groups := mc_action_groups m;
              mc_alerts := mc_alerts m;
              mc_diagnostics := <[(ds_resource d, ds_name d) := d]> (mc_diagnostics m) |})
      end
  end.

(** What the reference cloud hands out for the resources of the script. *)
Definition workspace_id (p : Params) : string :=
  resource_id (ResourceGroupName p) "Microsoft.OperationalInsights/workspaces"
    (logAnalyticsName (deriveNames (WebAppName p))).

Definition connection_string (p : Params) : string :=
  "InstrumentationKey=" +:+ appInsightsName (deriveNames (WebAppName p)).

Definition action_group_id (p : Params) : string :=
  resource_id (ResourceGroupName p) "microsoft.insights/actionGroups"
    (actionGroupName (deriveNames (WebAppName p))).

Definition insert_alert (A : gmap (string * string) MetricsAlert) (a : MetricsAlert) :
    gmap (string * string) MetricsAlert :=
  <[(ma_resource_group a, ma_name a) := a]> A.

(** The reference cloud after a complete run of the script for an
    application with identifier [appId] on the plan [planId]. *)
Definition monitored (p : Params) (appId planId : string) (m : MockCloud) : MockCloud :=
  let rg := ResourceGroupName p in
  let n := deriveNames (WebAppName p) in
  {| mc_account := mc_account m;
     mc_webapps := mc_webapps m;
     mc_appsettings :=
       <[(rg, WebAppName p) :=
           settings_map [("APPLICATIONINSIGHTS_CONNECTION_STRING", connection_string p);
                         ("ApplicationInsightsAgent_EXTENSION_VERSION", "~3");
                         ("XDT_MicrosoftApplicationInsights_Mode", "Recommended")]
           ∪ default ∅ (mc_appsettings m !! (rg, WebAppName p))]> (mc_appsettings m);
     mc_workspaces :=
       <[(rg, logAnalyticsName n) := workspace_descriptor rg (logAnalyticsName n) (Location p)]>
         (mc_workspaces m);
     mc_components :=
       <[(rg, appInsightsName n) :=
           component_descriptor rg (appInsightsName n) (Location p) (workspace_id p)]>
         (mc_components m);
     mc_action_groups :=
       <[(rg, actionGroupName n) := action_group_descriptor rg (actionGroupName n) "AppAlerts"]>
         (mc_action_groups m);
     mc_alerts :=
       foldl insert_alert (mc_alerts m) (expected_alerts p appId planId (action_group_id p));
     mc_diagnostics :=
       <[(appId, "diag-" +:+ WebAppName p) := expected_diagnostics p appId (workspace_id p)]>
         (mc_diagnostics m) |}.

(** Does the resource that a [create] command names exist already? *)
Definition target_exists (m : MockCloud) (c : AzCommand) : Prop :=
  match c with
  | LogAnalyticsWorkspaceCreate rg name _ _ => is_Some (mc_workspaces m !! (rg, name))
  | AppInsightsComponentCreate app _ rg _ _ => is_Some (mc_components m !! (rg, app))
  | ActionGroupCreate rg name _ _ => is_Some (mc_action_groups m !! (rg, name))
  | MetricsAlertCreate a => is_Some (mc_alerts m !! (ma_resource_group a, ma_name a))
  | DiagnosticSettingsCreate d => is_Some (mc_diagnostics m !! (ds_resource d, ds_name d))
  | WebappConfigAppsettingsSet name rg _ => is_Some (mc_webapps m !! (rg, name))
  | _ => True
  end.

(** A stricter provider: it refuses to create an action group for an address
    that is not valid, and behaves as [mock_az] otherwise. *)
Definition validating_az (c : AzCommand) (m : MockCloud) : option PSObject * MockCloud :=
  match c with
  | ActionGroupCreate _ _ _ [_; _; addr] =>
      if valid_email addr then mock_az c m else (None, m)
  | _ => mock_az c m
  end.

(** The number of resources in the account, the application itself apart. *)
Definition resource_count (m : MockCloud) : nat :=
  size (mc_workspaces m) + size (mc_components m) + size (mc_action_groups m)
  + size (mc_alerts m) + size (mc_diagnostics m).

(** An account after [infrastructure.sh]: logged in, one web application on
    its plan, nothing else. *)
Definition app_id (rg name : string) : string := resource_id rg "Microsoft.Web/sites" name.
Definition plan_id (rg plan : string) : string := resource_id rg "Microsoft.Web/serverfarms" plan.

Definition provisioned (rg name plan : string) : MockCloud :=
  {| mc_account := Some {["name" := "Subscription 1"]};
     mc_webapps :=
       {[(rg, name) := <["id" := app_id rg name]> {["appServicePlanId" := plan_id rg plan]}]};
     mc_appsettings := ∅;
     mc_workspaces := ∅; mc_components := ∅; mc_action_groups := ∅;
     mc_alerts := ∅; mc_diagnostics := ∅ |}.

(** Nobody is logged in. *)
Definition logged_out : MockCloud :=
  {| mc_account := None; mc_webapps := ∅; mc_appsettings := ∅;
     mc_workspaces := ∅; mc_components := ∅; mc_action_groups := ∅;
     mc_alerts := ∅; mc_diagnostics := ∅ |}.

(** The example of the script's help text. *)
Definition example_params : Params :=
  {| ResourceGroupName := "rg-myapp-dev"; WebAppName := "webapp-myapp-dev";
     Location := "eastus"; AlertEmailAddress := "admin@example.com" |}.

Definition example_cloud : MockCloud :=
  provisioned "rg-myapp-dev" "webapp-myapp-dev" "asp-myapp-dev".

(** The same invocation with an address that is no address, and with none. *)
Definition bad_email_invocation : Invocation :=
  {| arg_ResourceGroupName := "rg-myapp-dev"; arg_WebAppName := "webapp-myapp-dev";
     arg_Location := None; arg_AlertEmailAddress := "not-an-email" |}.

Definition bad_email_params : Params :=
  {| ResourceGroupName := "rg-myapp-dev"; WebAppName := "webapp-myapp-dev";
     Location := "eastus"; AlertEmailAddress := "not-an-email" |}.

Definition empty_email_invocation : Invocation :=
  {| arg_ResourceGroupName := "rg-myapp-dev"; arg_WebAppName := "webapp-myapp-dev";
     arg_Location := None; arg_AlertEmailAddress := EmptyString |}.

End Mock.

(** ** The infrastructure deployment: [infrastructure.sh] *)

Module Infrastructure.

(** The [az] command lines of the script. *)
Inductive Command :=
| AccountShow
| AccountShowTable (query : string)
| GroupCreate (name location : string) (tags : list string)
| AppServicePlanCreate (name resource_group location sku : string) (is_linux : bool)
| WebappCreate (name resource_group plan runtime : string)
| WebappUpdate (name resource_group https_only : string).

#[global] Instance Command_eq_dec : EqDecision Command.
Proof. solve_decision. Defined.

(** Configuration (lines 10-15).  [WEB_APP_NAME] ends in the output of
    [date +%s], the time in seconds since the epoch, in decimal. *)
Definition RESOURCE_GROUP : string := "rg-myapp-dev".
Definition LOCATION : string := "centralus".
Definition APP_SERVICE_PLAN : string := "asp-myapp-dev".
Definition SKU : string := "F1".

Definition decimal (n : N) : string := NilZero.string_of_uint (N.to_uint n).

Definition WEB_APP_NAME (now : N) : string := "webapp-myapp-dev-" +:+ decimal now.

(** Colours (lines 18-20), as [echo -e] writes them. *)
Definition ESC : string := String (Ascii.ascii_of_nat 27) EmptyString.
Definition GREEN : string := ESC +:+ "[0;32m".
Definition YELLOW : string := ESC +:+ "[1;33m".
Definition NC : string := ESC +:+ "[0m".

Section Script.

(** The cloud behind [az]: a command leaves an exit status and a new state
    of the cloud.  What [az] itself prints is not recorded. *)
Context {Cloud : Type}.
Variable az : Command → Cloud → Z * Cloud.

Record State := {
  cloud : Cloud;
  trace : list Command;
  out : list string
}.

(** A computation: either the status the script exited with, or a value. *)
Definition M (A : Type) : Type := State → (Z + A) * State.

#[global] Instance M_ret : MRet M := λ A (a : A) s, (inr a, s).
#[global] Instance M_bind : MBind M := λ A B (f : A → M B) (m : M A) s,
  match m s with
  | (inr a, s') => f a s'
  | (inl e, s') => (inl e, s')
  end.

Definition exit {A} (status : Z) : M A := λ s, (inl status, s).

(** [echo]: one line of output, without its final newline. *)
Definition echo (line : string) : M unit := λ s,
  (inr (), {| cloud := cloud s; trace := trace s; out := out s ++ [line] |}).

(** An [az] command on the left of [||]: its status is looked at. *)
Definition az_status (c : Command) : M Z := λ s,
  let '(status, cl) := az c (cloud s) in
  (inr status, {| cloud := cl; trace := trace s ++ [c]; out := out s |}).

(** An [az] command as a statement of its own under [set -e]: a status other
    than 0 ends the script with that status. *)
Definition az_e (c : Command) : M unit :=
  status ← az_status c;
  if bool_decide (status = 0) then mret () else exit status.

(** Lines 22-78. *)
Definition script (now : N) : M unit :=
  echo (YELLOW +:+ "Starting Azure infrastructure deployment..." +:+ NC);;
  echo "Verifying Azure CLI authentication...";;
  status ← az_status AccountShow;
  (if bool_decide (status = 0) then mret ()
   else echo "Please run 'az login' first";; exit 1);;
  echo (GREEN +:+ "Using subscription:" +:+ NC);;
  az_e (AccountShowTable "{Name:name, Id:id}");;
  echo (LF +:+ YELLOW +:+ "Creating Resource Group: " +:+ RESOURCE_GROUP +:+ NC);;
  az_e (GroupCreate RESOURCE_GROUP LOCATION ["Environment=Development"; "Project=MyApp"]);;
  echo (GREEN +:+ "✓ Resource Group created" +:+ NC);;
  echo (LF +:+ YELLOW +:+ "Creating App Service Plan: " +:+ APP_SERVICE_PLAN +:+ NC);;
  az_e (AppServicePlanCreate APP_SERVICE_PLAN RESOURCE_GROUP LOCATION SKU true);;
  echo (GREEN +:+ "✓ App Service Plan created" +:+ NC);;
  echo (LF +:+ YELLOW +:+ "Creating Web App: " +:+ WEB_APP_NAME now +:+ NC);;
  az_e (WebappCreate (WEB_APP_NAME now) RESOURCE_GROUP APP_SERVICE_PLAN "NODE:22-lts");;
  echo (GREEN +:+ "✓ Web App created" +:+ NC);;
  echo (LF +:+ YELLOW +:+ "Configuring security settings..." +:+ NC);;
  az_e (WebappUpdate (WEB_APP_NAME now) RESOURCE_GROUP "true");;
  echo (GREEN +:+ "✓ HTTPS-only enabled" +:+ NC);;
  echo (LF +:+ GREEN +:+ "============================================" +:+ NC);;
  echo (GREEN +:+ "Deployment Complete!" +:+ NC);;
  echo (GREEN +:+ "============================================" +:+ NC);;
  echo ("Resource Group: " +:+ RESOURCE_GROUP);;
  echo ("App Service Plan: " +:+ APP_SERVICE_PLAN);;
  echo ("Web App Name: " +:+ WEB_APP_NAME now);;
  echo ("Web App URL: https://" +:+ WEB_APP_NAME now +:+ ".azurewebsites.net");;
  echo (GREEN +:+ "============================================" +:+ NC).

Record RunResult := {
  exit_code : Z;
  final : State
}.

Definition initial (c : Cloud) : State := {| cloud := c; trace := []; out := [] |}.

(** The script run to its end at time [now]: the status of [exit], or 0
    after the last [echo]. *)
Definition run (now : N) (c : Cloud) : RunResult :=
  match script now (initial c) with
  | (inr _, s) => {| exit_code := 0; final := s |}
  | (inl status, s) => {| exit_code := status; final := s |}
  end.

(** The weakest precondition of a computation, for a postcondition [Q] on
    normal termination and [E] on [exit]. *)
Definition wp {A} (m : M A) (Q : A → State → Prop) (E : Z → State → Prop)
    (s : State) : Prop :=
  match m s with
  | (inr a, s') => Q a s'
  | (inl status, s') => E status s'
  end.

End Script.

Arguments State : clear implicits.
Arguments RunResult : clear implicits.

(** The commands of a run that goes through to the end. *)
Definition complete_trace (now : N) : list Command :=
  [AccountShow;
   AccountShowTable "{Name:name, Id:id}";
   GroupCreate RESOURCE_GROUP LOCATION ["Environment=Development"; "Project=MyApp"];
   AppServicePlanCreate APP_SERVICE_PLAN RESOURCE_GROUP LOCATION SKU true;
   WebappCreate (WEB_APP_NAME now) RESOURCE_GROUP APP_SERVICE_PLAN "NODE:22-lts";
   WebappUpdate (WEB_APP_NAME now) RESOURCE_GROUP "true"].

(** The statuses that [az] gave to the commands of a trace, from a cloud. *)
Fixpoint statuses {Cloud} (az : Command → Cloud → Z * Cloud) (t : list Command) (c : Cloud)
    : list Z :=
  match t with
  | [] => []
  | cmd :: t => (az cmd c).1 :: statuses az t (az cmd c).2
  end.

End Infrastructure.

(** ** The reference cloud for the infrastructure script

    The account of [Mock], together with the resource groups, the plans and
    the HTTPS-only flags that [infrastructure.sh] sets.  A plan needs its
    resource group, a web application its plan, an update its application;
    [az] gives status 1 when nobody is logged in and 3 when a resource is
    missing. *)

Module InfraMock.
Import Monitoring Mock Infrastructure.

Record InfraCloud := {
  ic_groups : gmap string string;
  ic_plans : gmap (string * string) string;
  ic_https_only : gmap (string * string) string;
  ic_monitor : MockCloud
}.

Definition webapp_descriptor (rg name plan : string) : PSObject :=
  <["id" := app_id rg name]> {["appServicePlanId" := plan_id rg plan]}.

Definition add_webapp (rg name plan : string) (m : MockCloud) : MockCloud :=
  {| mc_account := mc_account m;
     mc_webapps := <[(rg, name) := webapp_descriptor rg name plan]> (mc_webapps m);
     mc_appsettings := mc_appsettings m;
     mc_workspaces := mc_workspaces m;
     mc_components := mc_components m;
     mc_action_groups := mc_action_groups m;
     mc_alerts := mc_alerts m;
     mc_diagnostics := mc_diagnostics m |}.

Definition infra_az (c : Command) (m : InfraCloud) : Z * InfraCloud :=
  match mc_account (ic_monitor m) with
  | None => (1, m)
  | Some _ =>
      match c with
      | AccountShow | AccountShowTable _ => (0, m)
      | GroupCreate name location _ =>
          (0, {| ic_groups := <[name := location]> (ic_groups m);
                 ic_plans := ic_plans m; ic_https_only := ic_https_only m;
                 ic_monitor := ic_monitor m |})
      | AppServicePlanCreate name rg _ sku _ =>
          match ic_groups m !! rg with
          | None => (3, m)
          | Some _ =>
              (0, {| ic_groups := ic_groups m;
                     ic_plans := <[(rg, name) := sku]> (ic_plans m);
                     ic_https_only := ic_https_only m;
                     ic_monitor := ic_monitor m |})
          end
      | WebappCreate name rg plan _ =>
          match ic_plans m !! (rg, plan) with
          | None => (3, m)
          | Some _ =>
              (0, {| ic_groups := ic_groups m; ic_plans := ic_plans m;
                     ic_https_only := ic_https_only m;
                     ic_monitor := add_webapp rg name plan (ic_monitor m) |})
          end
      | WebappUpdate name rg https_only =>
          match mc_webapps (ic_monitor m) !! (rg, name) with
          | None => (3, m)
          | Some _ =>
              (0, {| ic_groups := ic_groups m; ic_plans := ic_plans m;
                     ic_https_only := <[(rg, name) := https_only]> (ic_https_only m);
                     ic_monitor := ic_monitor m |})
          end
      end
  end.

(** An account with somebody logged in and nothing in it. *)
Definition empty_account (subscription : string) : InfraCloud :=
  {| ic_groups := ∅; ic_plans := ∅; ic_https_only := ∅;
     ic_monitor :=
       {| mc_account := Some {["name" := subscription]};
          mc_webapps := ∅; mc_appsettings := ∅; mc_workspaces := ∅;
          mc_components := ∅; mc_action_groups := ∅; mc_alerts := ∅;
          mc_diagnostics := ∅ |} |}.

(** An account with nobody logged in. *)
Definition nobody : InfraCloud :=
  {| ic_groups := ∅; ic_plans := ∅; ic_https_only := ∅; ic_monitor := logged_out |}.

(** The account after a complete run of [infrastructure.sh] at time [now]. *)
Definition deployed (now : N) (m : InfraCloud) : InfraCloud :=
  {| ic_groups := <[RESOURCE_GROUP := LOCATION]> (ic_groups m);
     ic_plans := <[(RESOURCE_GROUP, APP_SERVICE_PLAN) := SKU]> (ic_plans m);
     ic_https_only := <[(RESOURCE_GROUP, WEB_APP_NAME now) := "true"]> (ic_https_only m);
     ic_monitor := add_webapp RESOURCE_GROUP (WEB_APP_NAME now) APP_SERVICE_PLAN (ic_monitor m) |}.


(** The example account with a second application on the same plan, and
    the parameters of the script for it. *)
Definition two_apps_cloud : MockCloud :=
  add_webapp "rg-myapp-dev" "webapp-other" "asp-myapp-dev" example_cloud.

Definition second_params : Params :=
  {| ResourceGroupName := "rg-myapp-dev"; WebAppName := "webapp-other";
     Location := "eastus"; AlertEmailAddress := "admin@example.com" |}.

End InfraMock.

(** ** The test of the health endpoint: [src/index.test.js] *)

Module HealthTest.
Import DemoServer.

(** [JSON.parse], for the texts that [JSON.stringify] makes of an object
    whose values are strings: no white space, string values only.  On any
    other text this function gives [None], whether [JSON.parse] accepts the
    text or not. *)
Definition hex_value (c : ascii) : option N :=
  let n := Ascii.N_of_ascii c in
  if ((48 <=? n) && (n <=? 57))%N then Some (n - 48)%N
  else if ((97 <=? n) && (n <=? 102))%N then Some (n - 87)%N
  else if ((65 <=? n) && (n <=? 70))%N then Some (n - 55)%N
  else None.

(** The character of an escape [\uXXXX], for a code below 256. *)
Definition unicode_escape (a b c d : ascii) : option ascii :=
  a ← hex_value a; b ← hex_value b; c ← hex_value c; d ← hex_value d;
  let code := (((a * 16 + b) * 16 + c) * 16 + d)%N in
  if (code <? 256)%N then Some (Ascii.ascii_of_N code) else None.

(** The character of a one-letter escape. *)
Definition simple_escape (c : ascii) : option ascii :=
  let n := Ascii.N_of_ascii c in
  if (n =? 34)%N then Some c
  else if (n =? 92)%N then Some c
  else if (n =? 47)%N then Some c
  else if (n =? 98)%N then Some (Ascii.ascii_of_N 8)
  else if (n =? 102)%N then Some (Ascii.ascii_of_N 12)
  else if (n =? 110)%N then Some (Ascii.ascii_of_N 10)
  else if (n =? 114)%N then Some (Ascii.ascii_of_N 13)
  else if (n =? 116)%N then Some (Ascii.ascii_of_N 9)
  else None.

(** A string, read from after its opening quotation mark: the string and
    the text after the closing quotation mark. *)
Fixpoint read_string (s : string) : option (string * string) :=
  match s with
  | EmptyString => None
  | String c rest =>
      let n := Ascii.N_of_ascii c in
      if (n =? 34)%N then Some (EmptyString, rest)
      else if (n =? 92)%N then
        match rest with
        | String e rest1 =>
            if (Ascii.N_of_ascii e =? 117)%N then
              match rest1 with
              | String h1 (String h2 (String h3 (String h4 rest2))) =>
                  match unicode_escape h1 h2 h3 h4, read_string rest2 with
                  | Some x, Some (t, after) => Some (String x t, after)
                  | _, _ => None
                  end
              | _ => None
              end
            else
              match simple_escape e, read_string rest1 with
              | Some x, Some (t, after) => Some (String x t, after)
              | _, _ => None
              end
        | EmptyString => None
        end
      else if (n <? 32)%N then None
      else
        match read_string rest with
        | Some (t, after) => Some (String c t, after)
        | None => None
        end
  end.

(** One member ["key":"value"], read from its opening quotation mark. *)
Definition read_member (s : string) : option ((string * string) * string) :=
  match s with
  | String q s1 =>
      if (Ascii.N_of_ascii q =? 34)%N then
        match read_string s1 with
        | Some (k, String colon (String q2 s2)) =>
            if ((Ascii.N_of_ascii colon =? 58) && (Ascii.N_of_ascii q2 =? 34))%N then
              match read_string s2 with
              | Some (v, after) => Some ((k, v), after)
              | None => None
              end
            else None
        | _ => None
        end
      else None
  | EmptyString => None
  end.

(** The members up to the closing brace; [fuel] bounds their number. *)
Fixpoint read_members (fuel : nat) (s : string) : option (list (string * string)) :=
  match fuel with
  | O => None
  | S fuel =>
      match read_member s with
      | Some (kv, String c after) =>
          if (Ascii.N_of_ascii c =? 125)%N then
            match after with EmptyString => Some [kv] | _ => None end
          else if (Ascii.N_of_ascii c =? 44)%N then
            match read_members fuel after with
            | Some o => Some (kv :: o)
            | None => None
            end
          else None
      | _ => None
      end
  end.

Definition JSON_parse (s : string) : option (list (string * string)) :=
  match s with
  | String b rest =>
      if (Ascii.N_of_ascii b =? 123)%N then
        match rest with
        | String c EmptyString =>
            if (Ascii.N_of_ascii c =? 125)%N then Some [] else None
        | _ => read_members (String.length rest) rest
        end
      else None
  | EmptyString => None
  end.

(** [data.name] on the parsed object: of two members with one name the later
    one counts; no such member gives [undefined]. *)
Definition get_property (data : list (string * string)) (name : string) : option string :=
  snd <$> last (filter (λ kv, kv.1 = name) data).

(** The request of the test (lines 11-16) and its two assertions (lines
    26-27): the test passes when the status is 200 and the body parses to an
    object whose [status] is [healthy]. *)
Definition health_request : Request := {| url := "/health"; method := "GET" |}.

Definition health_test (e : Env) : bool :=
  let response := handler e health_request in
  match JSON_parse (body response) with
  | Some data =>
      bool_decide (statusCode response = 200)
      && bool_decide (get_property data "status" = Some "healthy")
  | None => false
  end.

End HealthTest.

(** ** Further readings of a run of [monitoring-setup.ps1] *)

Module Readings.
Import Monitoring.



(** The location that a command creates its resource in, if it takes one. *)
Definition location_of (c : AzCommand) : option string :=
  match c with
  | LogAnalyticsWorkspaceCreate _ _ location _ => Some location
  | AppInsightsComponentCreate _ location _ _ _ => Some location
  | _ => None
  end.

(** The resource group that a command names; [az account show] and
    [az monitor diagnostic-settings create], which takes a resource
    identifier, name none. *)
Definition resource_group_of (c : AzCommand) : option string :=
  match c with
  | AccountShow | DiagnosticSettingsCreate _ => None
  | WebappShow _ rg | LogAnalyticsWorkspaceCreate rg _ _ _ | LogAnalyticsWorkspaceShow rg _
  | AppInsightsComponentCreate _ _ rg _ _ | AppInsightsComponentShow _ rg
  | WebappConfigAppsettingsSet _ rg _ | ActionGroupCreate rg _ _ _ | ActionGroupShow rg _ =>
      Some rg
  | MetricsAlertCreate a => Some (ma_resource_group a)
  end.




End Readings.

(** * Properties *)

(** ** Strings *)

Lemma append_inj_r (p s t : string) : p +:+ s = p +:+ t → s = t.
Proof. induction p as [|a p IH]; simpl; [done|]. intros [= H]. by apply IH. Qed.

Lemma append_length (a b : string) :
  String.length (a +:+ b) = (String.length a + String.length b)%nat.
Proof. induction a as [|x a IH]; simpl; [done|]. by f_equal. Qed.

Lemma append_inj_l (s t q : string) : s +:+ q = t +:+ q → s = t.
Proof.
  revert t. induction s as [|a s IH]; intros [|b t] H; simpl in *; try done.
  - apply (f_equal String.length) in H. simpl in H. rewrite append_length in H. lia.
  - apply (f_equal String.length) in H. simpl in H. rewrite append_length in H. lia.
  - injection H as -> H. f_equal. by apply IH.
Qed.

Lemma append_assoc (a b c : string) : (a +:+ b) +:+ c = a +:+ (b +:+ c).
Proof. induction a as [|x a IH]; [done|]. cbn. by rewrite IH. Qed.

Lemma starts_with_append (p s : string) : starts_with p (p +:+ s) = true.
Proof.
  induction p as [|a p IH]; simpl; [done|].
  rewrite IH. by rewrite bool_decide_eq_true_2.
Qed.

(** ** The demo server *)

Module DemoServerFacts.
Import DemoServer.

Lemma handler_status (e : Env) (req : Request) :
  statusCode (handler e req) = status_of_url (url req).
Proof. unfold handler, status_of_url. by repeat case_bool_decide. Qed.

Lemma health_body_prefix (ts : string) :
  starts_with health_prefix (JSON_stringify [("status", "healthy"); ("timestamp", ts)]) = true.
Proof.
  replace (JSON_stringify [("status", "healthy"); ("timestamp", ts)])
    with (health_prefix +:+ (QuoteJSONString "timestamp" +:+ ":" +:+ QuoteJSONString ts +:+ "}")).
  - apply starts_with_append.
  - reflexivity.
Qed.

(** The template of the [/] route, line by line, is the text of the page
    around the time of the request, the version of Node and the name of the
    environment. *)
Lemma index_page_text (e : Env) :
  index_page e = html_page (timestamp e) (process_version e) (environment_name e).
Proof.
  unfold index_page, html_page. cbn [concat_lines].
  rewrite !append_assoc. reflexivity.
Qed.

(** C10. The request handler is total and splits on the url alone into three
    cases: [/health] is answered 200 with a JSON object whose [status] is
    [healthy], [/] is answered 200 with the HTML page (the document from
    [<!DOCTYPE html>] to [</html>], showing the time of the request, the
    version of Node and the environment, [development] when [NODE_ENV] is
    unset or empty), and every other url is answered 404 with the JSON object
    [{error: Not Found}]; two requests with the same url get the same status,
    whatever the rest of the request and the environment are. *)
Theorem handler_three_cases (e : Env) (req : Request) :
  (url req = "/health" →
     statusCode (handler e req) = 200
     ∧ headers (handler e req) = [("Content-Type", "application/json")]
     ∧ body (handler e req) = JSON_stringify [("status", "healthy"); ("timestamp", timestamp e)]
     ∧ starts_with health_prefix (body (handler e req)) = true)
  ∧ (url req = "/" →
     statusCode (handler e req) = 200
     ∧ headers (handler e req) = [("Content-Type", "text/html")]
     ∧ body (handler e req) = index_page e
     ∧ ∃ environment,
         body (handler e req) = html_page (timestamp e) (process_version e) environment
         ∧ (NODE_ENV e = None ∨ NODE_ENV e = Some EmptyString → environment = "development")
         ∧ (∀ name, NODE_ENV e = Some name → name ≠ EmptyString → environment = name))
  ∧ (url req ≠ "/health" → url req ≠ "/" →
     statusCode (handler e req) = 404
     ∧ headers (handler e req) = [("Content-Type", "application/json")]
     ∧ body (handler e req) = not_found_body)
  ∧ (url req = "/health" ∨ url req = "/" ∨ (url req ≠ "/health" ∧ url req ≠ "/"))
  ∧ (∀ e' req', url req' = url req →
     statusCode (handler e' req') = statusCode (handler e req)).
Proof.
  split_and!.
  - intros Hu. unfold handler. rewrite bool_decide_eq_true_2 by done.
    cbn [statusCode headers body]. split_and!; first [done | apply health_body_prefix].
  - intros Hu. unfold handler. rewrite bool_decide_eq_false_2 by (by rewrite Hu).
    rewrite bool_decide_eq_true_2 by done. cbn [statusCode headers body].
    split_and!; try done.
    exists (environment_name e). split; [apply index_page_text|].
    unfold environment_name. split.
    + by intros [->| ->].
    + intros name ->. by destruct name.
  - intros H1 H2. unfold handler. by rewrite !bool_decide_eq_false_2 by done.
  - destruct (decide (url req = "/health")); [by left|].
    destruct (decide (url req = "/")); [by right; left|by right; right].
  - intros e' req' Hu. by rewrite !handler_status, Hu.
Qed.

Lemma handler_three_cases_witness :
  statusCode (handler env0 {| url := "/health"; method := "GET" |}) = 200
  ∧ statusCode (handler env0 {| url := "/"; method := "GET" |}) = 200
  ∧ body (handler env0 {| url := "/"; method := "GET" |})
    = html_page "2025-12-01T20:00:00.000Z" "v22.11.0" "development"
  ∧ statusCode (handler env0 {| url := "/health?probe=1"; method := "GET" |}) = 404
  ∧ body (handler env0 {| url := "/missing"; method := "POST" |}) = not_found_body.
Proof.
  split_and!.
  - by apply (handler_three_cases env0 {| url := "/health"; method := "GET" |}).
  - by apply (handler_three_cases env0 {| url := "/"; method := "GET" |}).
  - destruct (handler_three_cases env0 {| url := "/"; method := "GET" |})
      as (_ & Hroot & _).
    destruct (Hroot eq_refl) as (_ & _ & _ & environment & -> & Hdefault & _).
    by rewrite Hdefault; [|left].
  - by apply (handler_three_cases env0 {| url := "/health?probe=1"; method := "GET" |}).
  - by apply (handler_three_cases env0 {| url := "/missing"; method := "POST" |}).
Defined.

End DemoServerFacts.

(** ** The monitoring set-up *)

Module MonitoringFacts.
Import Monitoring.

(** *** Naming *)

Lemma actionGroupName_inj (a b : string) :
  actionGroupName (deriveNames a) = actionGroupName (deriveNames b) → a = b.
Proof.
  unfold deriveNames; cbn [actionGroupName]. intros H.
  apply (append_inj_r "ag-") in H. by apply append_inj_l in H.
Qed.

(** C6. [deriveNames] is a total function of the application name: equal
    names give equal results, and two different names give results that
    differ, in each of the three derived names. *)
Theorem deriveNames_deterministic_injective (a b : string) :
  (a = b → deriveNames a = deriveNames b)
  ∧ (a ≠ b →
     deriveNames a ≠ deriveNames b
     ∧ logAnalyticsName (deriveNames a) ≠ logAnalyticsName (deriveNames b)
     ∧ appInsightsName (deriveNames a) ≠ appInsightsName (deriveNames b)
     ∧ actionGroupName (deriveNames a) ≠ actionGroupName (deriveNames b)).
Proof.
  split; [by intros ->|]. intros Hne.
  assert (Hla : logAnalyticsName (deriveNames a) ≠ logAnalyticsName (deriveNames b)).
  { intros H. apply Hne. by apply (append_inj_r "log-"). }
  split_and!; try done.
  - intros H. apply Hla. by rewrite H.
  - intros H. apply Hne. by apply (append_inj_r "appi-").
  - intros H. apply Hne. by apply actionGroupName_inj.
Qed.

Lemma deriveNames_deterministic_injective_witness :
  deriveNames "webapp-a" = deriveNames "webapp-a"
  ∧ deriveNames "webapp-a" ≠ deriveNames "webapp-b".
Proof.
  split.
  - by apply (deriveNames_deterministic_injective "webapp-a" "webapp-a").
  - by apply (deriveNames_deterministic_injective "webapp-a" "webapp-b").
Defined.

(** *** A weakest-precondition calculus for the script *)

Section Calculus.
Context {Cloud : Type}.
Variable az : AzCommand → Cloud → option PSObject * Cloud.

Lemma wp_ret {A} (a : A) Q E (s : State Cloud) : Q a s → wp (mret a) Q E s.
Proof. done. Qed.

Lemma wp_throw {A} msg (Q : A → State Cloud → Prop) E s : E msg s → wp (throw msg) Q E s.
Proof. done. Qed.

Lemma wp_bind {A B} (m : M A) (f : A → M B) Q E (s : State Cloud) :
  wp m (λ a s', wp (f a) Q E s') E s → wp (m ≫= f) Q E s.
Proof. unfold wp, mbind, M_bind. by destruct (m s) as [[e|a] s']. Qed.

Lemma wp_Write_Host t c (Q : unit → State Cloud → Prop) E s :
  (∀ l, Q () {| cloud := cloud s; trace := trace s; host := host s ++ [l]; vars := vars s |}) →
  wp (Write_Host t c) Q E s.
Proof. intros H. apply H. Qed.

Lemma wp_Write_Status msg ty (Q : unit → State Cloud → Prop) E s :
  (∀ l, Q () {| cloud := cloud s; trace := trace s; host := host s ++ [l]; vars := vars s |}) →
  wp (Write_Status msg ty) Q E s.
Proof.
  intros H. unfold Write_Status. repeat case_bool_decide; by apply wp_Write_Host.
Qed.

Lemma wp_az_json c (Q : option PSObject → State Cloud → Prop) E s :
  (∀ out cl, az c (cloud s) = (out, cl) →
     Q out {| cloud := cl; trace := trace s ++ [c]; host := host s; vars := vars s |}) →
  wp (az_json az c) Q E s.
Proof.
  intros H. unfold wp, az_json. destruct (az c (cloud s)) as [out cl] eqn:Heq. by apply H.
Qed.

Lemma wp_az_run c (Q : unit → State Cloud → Prop) E s :
  (∀ out cl, az c (cloud s) = (out, cl) →
     Q () {| cloud := cl; trace := trace s ++ [c]; host := host s; vars := vars s |}) →
  wp (az_run az c) Q E s.
Proof.
  intros H. unfold wp, az_run. destruct (az c (cloud s)) as [out cl] eqn:Heq. by eapply H.
Qed.

Lemma wp_read {A} (f : Vars → A) (Q : A → State Cloud → Prop) E s :
  Q (f (vars s)) s → wp (read f) Q E s.
Proof. done. Qed.

Lemma wp_assign f (Q : unit → State Cloud → Prop) E s :
  Q () {| cloud := cloud s; trace := trace s; host := host s; vars := f (vars s) |} →
  wp (assign f) Q E s.
Proof. done. Qed.

Lemma wp_property o name (Q : string → State Cloud → Prop) E s :
  (∀ obj v, o = Some obj → obj !! name = Some v → Q v s) →
  ((∀ obj, o = Some obj → obj !! name = None) → E (property_error name) s) →
  wp (property o name) Q E s.
Proof.
  intros HQ HE. unfold property. destruct o as [obj|].
  - destruct (obj !! name) as [v|] eqn:Hv.
    + apply wp_ret. by eapply HQ.
    + apply wp_throw. apply HE. by intros ? [= <-].
  - apply wp_throw. apply HE. by intros ? [=].
Qed.

Lemma wp_variable f name (Q : string → State Cloud → Prop) E s :
  (∀ v, f (vars s) = Some v → Q v s) →
  (f (vars s) = None → E (variable_error name) s) →
  wp (variable f name) Q E s.
Proof. intros HQ HE. unfold wp, variable. destruct (f (vars s)) as [v|]; auto. Qed.

Lemma Write_Status_state msg ty (s : State Cloud) :
  let s' := (Write_Status msg ty s).2 in
  cloud s' = cloud s ∧ trace s' = trace s ∧ vars s' = vars s.
Proof. unfold Write_Status. by repeat case_bool_decide. Qed.

(** What holds of the result of every run follows from the weakest
    precondition of the [try] block; the [catch] block writes one line and
    leaves the rest of the state alone. *)
Lemma run_wp (Φ : RunResult Cloud → Prop) p c :
  wp (script az p)
     (λ _ s, Φ {| exit_code := 0; error := None; final := s |})
     (λ e s, ∀ s', cloud s' = cloud s → trace s' = trace s → vars s' = vars s →
                   Φ {| exit_code := 1; error := Some e; final := s' |})
     (initial c) →
  Φ (run az p c).
Proof.
  unfold wp, run. destruct (script az p (initial c)) as [[e|[]] s]; [|done].
  intros H. by apply H; apply Write_Status_state.
Qed.

End Calculus.

Lemma wp_property_some {Cloud} obj name v (Q : string → State Cloud → Prop) E s :
  obj !! name = Some v → Q v s → wp (property (Some obj) name) Q E s.
Proof. intros Hv HQ. unfold property. rewrite Hv. by apply wp_ret. Qed.

Lemma wp_variable_some {Cloud} f name v (Q : string → State Cloud → Prop) E s :
  f (vars s) = Some v → Q v s → wp (variable f name) Q E s.
Proof. intros Hv HQ. unfold wp, variable. by rewrite Hv. Qed.

(** To see that a command prints an object with a property it is enough to
    compute the value of the property. *)
Lemma answers_lookup {Cloud} (az : AzCommand → Cloud → option PSObject * Cloud)
    t c n name v :
  output_at az t n c ≫= (.!! name) = Some v → answers az t c n name v.
Proof.
  unfold answers. destruct (output_at az t n c) as [obj|]; [|done].
  intros H. by exists obj.
Qed.

Ltac wp_simpl :=
  cbn [cloud trace host vars account webApp webAppResourceId logAnalytics appInsights
       actionGroup appServicePlanId set_account set_webApp set_webAppResourceId
       set_logAnalytics set_appInsights set_actionGroup set_appServicePlanId
       no_vars initial not_ app].

(** One step of symbolic execution; [tac] is run on the equation that records
    what an [az] command did. *)
Ltac wp_step_with tac :=
  lazymatch goal with
  | |- wp (mbind _ _) _ _ _ => apply wp_bind
  | |- wp (mret _) _ _ _ => apply wp_ret
  | |- wp (throw _) _ _ _ => apply wp_throw
  | |- wp (Write_Status _ _) _ _ _ => apply wp_Write_Status; intros ?
  | |- wp (Write_Host _ _) _ _ _ => apply wp_Write_Host; intros ?
  | |- wp (az_json _ _) _ _ _ =>
      let H := fresh "Haz" in apply wp_az_json; intros ? ? H; cbn [cloud] in H; tac H
  | |- wp (az_run _ _) _ _ _ =>
      let H := fresh "Haz" in apply wp_az_run; intros ? ? H; cbn [cloud] in H; tac H
  | |- wp (read _) _ _ _ => apply wp_read
  | |- wp (assign _) _ _ _ => apply wp_assign
  | |- wp (property _ _) _ _ _ => apply wp_property; [intros ? ? ? ?|intros ?]
  | |- wp (variable _ _) _ _ _ =>
      let H := fresh "Hvar" in
      apply wp_variable; [intros ? H|intros H];
      cbn [vars account webApp webAppResourceId logAnalytics appInsights actionGroup
           appServicePlanId set_account set_webApp set_webAppResourceId set_logAnalytics
           set_appInsights set_actionGroup set_appServicePlanId no_vars] in H
  | |- wp (if not_ ?o then _ else _) _ _ _ => destruct o
  | |- wp (verify_preconditions _ _) _ _ _ => unfold verify_preconditions
  | |- wp (create_log_analytics _ _) _ _ _ => unfold create_log_analytics
  | |- wp (create_app_insights _ _) _ _ _ => unfold create_app_insights
  | |- wp (configure_app_service _ _) _ _ _ => unfold configure_app_service
  | |- wp (create_action_group _ _) _ _ _ => unfold create_action_group
  | |- wp (get_app_service_plan _) _ _ _ => unfold get_app_service_plan
  | |- wp (create_alert_rules _ _) _ _ _ => unfold create_alert_rules
  | |- wp (create_alert _ _ _ _ _ _ _ _) _ _ _ => unfold create_alert
  | |- wp (enable_diagnostics _ _) _ _ _ => unfold enable_diagnostics
  | |- wp (summary _) _ _ _ => unfold summary
  | |- wp (script _ _) _ _ _ => unfold script
  end; wp_simpl.

Ltac wp_step := wp_step_with ltac:(fun H => idtac).

(** Run the whole script symbolically; what is left is one goal for the
    complete run and one for each place where the script can stop. *)
Ltac wp_run := apply run_wp; repeat wp_step.

(** Leaves of the symbolic execution. *)
Ltac leaf :=
  intros; cbn [exit_code error final trace vars cloud] in *; simplify_eq;
  repeat match goal with
         | H : trace ?s = _ |- _ => try rewrite H; clear H
         | H : vars ?s = _ |- _ => try rewrite H; clear H
         | H : cloud ?s = _ |- _ => try rewrite H; clear H
         end.

(** Symbolic execution under hypotheses on what the provider prints: the
    equation [az c cl = (out, cl')] of a step is used in the hypotheses, which
    speak of the same command issued in the same cloud. *)
Ltac oracle_invert H :=
  lazymatch type of H with
  | ?lhs = _ =>
      repeat match goal with
             | H' : context [lhs] |- _ =>
                 tryif constr_eq H H' then fail
                 else (rewrite H in H'; cbn [fst snd] in H')
             end
  end;
  repeat match goal with
         | Hx : ?x = Some _ |- _ => is_var x; subst x
         | Hx : ?x = None |- _ => is_var x; subst x
         end.

Ltac oracle_step :=
  lazymatch goal with
  | |- wp (property (Some _) _) _ _ _ =>
      first [eapply wp_property_some; [eassumption|]
            |apply wp_property; [intros ? ? ? ?|intros ?]]; wp_simpl
  | |- wp (variable _ _) _ _ _ => eapply wp_variable_some; [reflexivity|]; wp_simpl
  | |- _ => wp_step_with oracle_invert
  end.

Ltac oracle_unfold :=
  unfold steps_1_to_4_succeed, answers, output_at, complete_trace, steps_1_to_5,
    expected_alerts, expected_diagnostics in *;
  cbn [lookup list_lookup take cloud_after foldl app fmap list_fmap] in *.

Section Runs.
Context {Cloud : Type}.
Variable az : AzCommand → Cloud → option PSObject * Cloud.

(** A run that ends with exit code 0 went through every step: the variables
    hold what the [show] commands printed, and the commands issued are the
    fourteen of [complete_trace]. *)
Lemma run_success p c :
  exit_code (run az p c) = 0 →
  ∃ acct w ws ai ag appId planId wsId cs agId cl1 cl1' cl2 cl2',
    vars (final (run az p c)) =
      {| account := Some acct; webApp := Some w; webAppResourceId := Some appId;
         logAnalytics := Some ws; appInsights := Some ai; actionGroup := Some ag;
         appServicePlanId := Some planId |}
    ∧ w !! "id" = Some appId ∧ w !! "appServicePlanId" = Some planId
    ∧ ws !! "id" = Some wsId ∧ ai !! "connectionString" = Some cs
    ∧ ag !! "id" = Some agId
    ∧ az (WebappShow (WebAppName p) (ResourceGroupName p)) cl1 = (Some w, cl1')
    ∧ az (ActionGroupShow (ResourceGroupName p) (actionGroupName (deriveNames (WebAppName p))))
         cl2 = (Some ag, cl2')
    ∧ trace (final (run az p c)) = complete_trace p appId planId wsId cs agId.
Proof.
  wp_run; leaf.
  do 14 eexists. split; [reflexivity|]. split_and!; try eassumption. reflexivity.
Qed.

(** C1. In every successful run the CPU and memory rules are scoped to the
    plan identifier read from the application descriptor that
    [az webapp show] printed, and the HTTP 5xx and response time rules to the
    identifier of the application; the application and its plan being two
    resources, no rule of the first pair has the application as its scope
    and no rule of the second pair has the plan. *)
Theorem scoping_invariant p c :
  exit_code (run az p c) = 0 →
  ∃ w appId planId cl cl',
    az (WebappShow (WebAppName p) (ResourceGroupName p)) cl = (Some w, cl')
    ∧ webApp (vars (final (run az p c))) = Some w
    ∧ w !! "id" = Some appId ∧ w !! "appServicePlanId" = Some planId
    ∧ length (alerts_of (trace (final (run az p c)))) = 4%nat
    ∧ (λ s, (metricName s, scopeResourceId s))
        <$> omap alert_rule_spec (alerts_of (trace (final (run az p c))))
      = [("CpuPercentage", planId); ("MemoryPercentage", planId);
         ("Http5xx", appId); ("HttpResponseTime", appId)]
    ∧ (planId ≠ appId →
       Forall (λ s,
           (metricName s ∈ ["CpuPercentage"; "MemoryPercentage"] → scopeResourceId s ≠ appId)
           ∧ (metricName s ∈ ["Http5xx"; "HttpResponseTime"] → scopeResourceId s ≠ planId))
         (omap alert_rule_spec (alerts_of (trace (final (run az p c)))))).
Proof.
  intros Hok.
  destruct (run_success p c Hok)
    as (acct & w & ws & ai & ag & appId & planId & wsId & cs & agId & cl1 & cl1' & cl2 & cl2'
        & Hvars & Hid & Hplan & Hws & Hcs & Hag & Hshow & Hagshow & Htrace).
  exists w, appId, planId, cl1, cl1'. rewrite Hvars, Htrace.
  split_and!; try done.
  intros Hne. cbn.
  repeat (apply Forall_cons; split;
          [split; cbn; intros Hin Heq; rewrite ?elem_of_cons, ?elem_of_nil in Hin;
           first [by apply Hne | by destruct Hin as [?|[?|[]]]]|]).
  by constructor.
Qed.

(** C2. Every successful run creates exactly four alert rules, with the
    metric, aggregation, operator, threshold, window, frequency and severity
    of the table, each with the identifier of the action group that
    [az monitor action-group show] printed as its action. *)
Theorem alert_rule_table p c :
  exit_code (run az p c) = 0 →
  ∃ ag agId cl cl',
    az (ActionGroupShow (ResourceGroupName p) (actionGroupName (deriveNames (WebAppName p)))) cl
      = (Some ag, cl')
    ∧ actionGroup (vars (final (run az p c))) = Some ag
    ∧ ag !! "id" = Some agId
    ∧ length (alerts_of (trace (final (run az p c)))) = 4%nat
    ∧ table_row <$> omap alert_rule_spec (alerts_of (trace (final (run az p c))))
      = [("CpuPercentage", avg, ">", 80%N, 300%N, 60%N, 2);
         ("MemoryPercentage", avg, ">", 85%N, 300%N, 60%N, 2);
         ("Http5xx", total, ">", 10%N, 300%N, 60%N, 1);
         ("HttpResponseTime", avg, ">", 5%N, 300%N, 60%N, 3)]
    ∧ ma_condition <$> alerts_of (trace (final (run az p c)))
      = ["avg CpuPercentage > 80"; "avg MemoryPercentage > 85";
         "total Http5xx > 10"; "avg HttpResponseTime > 5"]
    ∧ Forall (λ a, ma_window_size a = "5m" ∧ ma_evaluation_frequency a = "1m"
                   ∧ ma_action a = agId ∧ ma_resource_group a = ResourceGroupName p)
        (alerts_of (trace (final (run az p c)))).
Proof.
  intros Hok.
  destruct (run_success p c Hok)
    as (acct & w & ws & ai & ag & appId & planId & wsId & cs & agId & cl1 & cl1' & cl2 & cl2'
        & Hvars & Hid & Hplan & Hws & Hcs & Hag & Hshow & Hagshow & Htrace).
  exists ag, agId, cl2, cl2'. rewrite Hvars, Htrace.
  split_and!; try done.
  cbn. by repeat constructor.
Qed.

(** C8. Whatever the run, every alert rule that the script creates has a
    window of five minutes and a frequency of one minute: the window is at
    least the frequency. *)
Theorem window_at_least_frequency p c :
  Forall window_covers_frequency (alerts_of (trace (final (run az p c)))).
Proof.
  wp_run; leaf; cbn;
    repeat (apply Forall_cons; split;
            [eexists; split; [reflexivity|]; cbn; split_and!; [lia|done|done]|]);
    by constructor.
Qed.

(** C3. When nobody is logged in, or the web application is not found in the
    resource group, the run ends with exit code 1 and it has issued nothing
    but the [show] commands of the check: no resource is created or
    changed. *)
Theorem precondition_failure p c :
  (az AccountShow c).1 = None
  ∨ (az (WebappShow (WebAppName p) (ResourceGroupName p)) (az AccountShow c).2).1 = None →
  exit_code (run az p c) = 1
  ∧ exit_code (run az p c) ≠ 0
  ∧ status (run az p c) = Failure
  ∧ is_Some (error (run az p c))
  ∧ (trace (final (run az p c)) = [AccountShow]
     ∨ trace (final (run az p c))
       = [AccountShow; WebappShow (WebAppName p) (ResourceGroupName p)])
  ∧ Forall (λ c, is_show c = true) (trace (final (run az p c))).
Proof.
  intros H. unfold status. wp_run; leaf;
    try match goal with Hz : az AccountShow _ = _ |- _ => rewrite Hz in H end;
    cbn [fst snd] in H;
    try match goal with Hz : az (WebappShow _ _) _ = _ |- _ => rewrite Hz in H end;
    cbn [fst snd] in H;
    (destruct H as [H|H]; [try discriminate H..]);
    (split_and!; [done|done|done|by eexists|by auto|by repeat constructor]).
Qed.

(** The only place where the script throws [Failed to create Action Group]
    is the check of step 5: a run that ended with this message has issued
    the commands of steps 1 to 5 and no other, and the [show] of the action
    group printed nothing. *)
Lemma action_group_throw p c :
  error (run az p c) = Some "Failed to create Action Group" →
  exit_code (run az p c) = 1
  ∧ status (run az p c) = PartialFailure
  ∧ ∃ ws wsId ai cs cl,
      logAnalytics (vars (final (run az p c))) = Some ws ∧ ws !! "id" = Some wsId
      ∧ appInsights (vars (final (run az p c))) = Some ai
      ∧ ai !! "connectionString" = Some cs
      ∧ actionGroup (vars (final (run az p c))) = None
      ∧ alerts_of (trace (final (run az p c))) = []
      ∧ diagnostics_of (trace (final (run az p c))) = []
      ∧ az (ActionGroupShow (ResourceGroupName p)
              (actionGroupName (deriveNames (WebAppName p)))) cl
        = (None, cloud (final (run az p c)))
      ∧ trace (final (run az p c)) = steps_1_to_5 p wsId cs.
Proof.
  unfold status. wp_run; leaf.
  split_and!; try done.
  do 5 eexists. split_and!; try done; eassumption.
Qed.

(** C4. Steps 1 to 4 having succeeded, when the [show] of step 5 prints no
    action group the run fails: it ends with the error of step 5 and exit code
    1, a partial failure.  The variables hold the workspace with its
    identifier and the Application Insights component with its connection
    string and no action group; no alert rule and no diagnostic setting has
    been created; the commands issued are those of steps 1 to 5 and the
    cloud is as these nine commands left it: nothing is undone. *)
Theorem action_group_failure p c appId wsId cs :
  steps_1_to_4_succeed az p c appId wsId cs →
  output_at az (steps_1_to_5 p wsId cs) 8 c = None →
  error (run az p c) = Some "Failed to create Action Group"
  ∧ exit_code (run az p c) = 1
  ∧ status (run az p c) = PartialFailure
  ∧ (∃ ws ai,
       logAnalytics (vars (final (run az p c))) = Some ws ∧ ws !! "id" = Some wsId
       ∧ appInsights (vars (final (run az p c))) = Some ai
       ∧ ai !! "connectionString" = Some cs)
  ∧ actionGroup (vars (final (run az p c))) = None
  ∧ alerts_of (trace (final (run az p c))) = []
  ∧ diagnostics_of (trace (final (run az p c))) = []
  ∧ trace (final (run az p c)) = steps_1_to_5 p wsId cs
  ∧ cloud (final (run az p c)) = cloud_after az (steps_1_to_5 p wsId cs) c.
Proof.
  intros ((sub & acct & Hacct & Hsub) & (w & Hw & Hid) & (ws & Hws & Hwsid)
          & (ai & Hai & Hcs)) Hag.
  unfold status.
  assert (Hc : ∃ c', c' = cloud_after az (steps_1_to_5 p wsId cs) c) by eauto.
  destruct Hc as [c' Hc]. rewrite <- Hc.
  oracle_unfold.
  apply run_wp. repeat oracle_step.
  all: leaf.
  split_and!; try done. by exists ws, ai.
Qed.

(** With steps 1 to 4 answered, the first eight commands of the run are
    those of steps 1 to 5 up to the creation of the action group, whatever
    the address is and whatever happens afterwards. *)
Lemma run_reaches_action_group p c appId wsId cs :
  steps_1_to_4_succeed az p c appId wsId cs →
  take 8 (trace (final (run az p c))) = take 8 (steps_1_to_5 p wsId cs).
Proof.
  intros ((sub & acct & Hacct & Hsub) & (w & Hw & Hid) & (ws & Hws & Hwsid)
          & (ai & Hai & Hcs)).
  oracle_unfold.
  apply run_wp. repeat oracle_step.
  all: by leaf.
Qed.

(** With every [show] answered the run goes through all its steps: the
    converse of [run_success]. *)
Lemma run_complete p c appId planId wsId cs agId :
  steps_1_to_4_succeed az p c appId wsId cs →
  answers az (steps_1_to_5 p wsId cs) c 1 "appServicePlanId" planId →
  answers az (steps_1_to_5 p wsId cs) c 8 "id" agId →
  exit_code (run az p c) = 0
  ∧ trace (final (run az p c)) = complete_trace p appId planId wsId cs agId
  ∧ cloud (final (run az p c))
    = cloud_after az (complete_trace p appId planId wsId cs agId) c.
Proof.
  intros ((sub & acct & Hacct & Hsub) & (w & Hw & Hid) & (ws & Hws & Hwsid)
          & (ai & Hai & Hcs)) (w' & Hw' & Hplan) (ag & Hag & Hagid).
  assert (Hc : ∃ c', c' = cloud_after az (complete_trace p appId planId wsId cs agId) c)
    by eauto.
  destruct Hc as [c' Hc]. rewrite <- Hc.
  oracle_unfold. rewrite Hw in Hw'. injection Hw' as <-.
  apply run_wp. repeat oracle_step.
  all: by leaf.
Qed.

(** Whatever the address and whatever the cloud answers, the first thing a
    run does is a call of [az], and an action group is only ever created
    with the address as it was given. *)
Lemma run_forwards_email p c :
  head (trace (final (run az p c))) = Some AccountShow
  ∧ Forall (forwards_email (AlertEmailAddress p)) (trace (final (run az p c))).
Proof.
  wp_run; leaf; (split; [done|]);
    repeat (apply Forall_cons; split; [done|]); by constructor.
Qed.

End Runs.

(** C9, as the script has it.  The script does not look at the syntax of the
    address.  An empty address is refused when the parameters are bound:
    exit code 1, no [az] command, the cloud untouched.  With the three
    mandatory arguments not empty the parameters are bound and the run
    starts calling [az], whether the address is valid or not; an action
    group is only ever created with the address as it was given; when
    steps 1 to 4 succeed the eighth command is the
    [az monitor action-group create] of step 5 with that address; and when
    the provider answers every [show], that of the action group included,
    the run succeeds, all fourteen commands issued.  Whether an address is
    refused is up to the provider. *)
Theorem email_checked_for_emptiness_only {Cloud} az (a : Invocation) (c : Cloud)
    appId planId wsId cs agId :
  (arg_AlertEmailAddress a = EmptyString →
     exit_code (invoke az a c) = 1
     ∧ is_Some (error (invoke az a c))
     ∧ trace (final (invoke az a c)) = []
     ∧ cloud (final (invoke az a c)) = c)
  ∧ (arg_ResourceGroupName a ≠ EmptyString → arg_WebAppName a ≠ EmptyString →
     arg_AlertEmailAddress a ≠ EmptyString →
     bind_parameters a = inr (params_of a)
     ∧ head (trace (final (invoke az a c))) = Some AccountShow
     ∧ Forall (forwards_email (arg_AlertEmailAddress a)) (trace (final (invoke az a c)))
     ∧ (steps_1_to_4_succeed az (params_of a) c appId wsId cs →
        trace (final (invoke az a c)) !! 7%nat
        = Some (ActionGroupCreate (arg_ResourceGroupName a)
                  (actionGroupName (deriveNames (arg_WebAppName a))) "AppAlerts"
                  ["email"; "AdminEmail"; arg_AlertEmailAddress a]))
     ∧ (steps_1_to_4_succeed az (params_of a) c appId wsId cs →
        answers az (steps_1_to_5 (params_of a) wsId cs) c 1 "appServicePlanId" planId →
        answers az (steps_1_to_5 (params_of a) wsId cs) c 8 "id" agId →
        exit_code (invoke az a c) = 0
        ∧ status (invoke az a c) = Success
        ∧ trace (final (invoke az a c))
          = complete_trace (params_of a) appId planId wsId cs agId)).
Proof.
  split.
  - unfold invoke, bind_parameters. intros ->. cbn [is_empty].
    destruct (is_empty (arg_ResourceGroupName a)); [by eauto|].
    destruct (is_empty (arg_WebAppName a)); by eauto.
  - intros Hrg Happ Hmail.
    assert (Hbind : bind_parameters a = inr (params_of a)).
    { unfold bind_parameters, params_of.
      destruct (arg_ResourceGroupName a) as [|? ?] eqn:Erg; [done|].
      destruct (arg_WebAppName a) as [|? ?] eqn:Eapp; [done|].
      by destruct (arg_AlertEmailAddress a) as [|? ?] eqn:Email. }
    unfold invoke, status. rewrite Hbind. split; [done|].
    destruct (run_forwards_email az (params_of a) c) as [Hhead Hforward].
    split_and!; [done|done| |].
    + intros H. apply (run_reaches_action_group az) in H.
      apply (f_equal (λ t, t !! 7%nat)) in H.
      by rewrite !lookup_take_lt in H by lia.
    + intros H Hplan Hag.
      destruct (run_complete az (params_of a) c appId planId wsId cs agId)
        as (Hexit & Htrace & _); [done..|].
      by rewrite Hexit.
Qed.

End MonitoringFacts.

(** ** Runs against the reference cloud *)

Module MockFacts.
Import Monitoring Mock MonitoringFacts.

(** Read an equation [mock_az c m = (out, m')] as the values of [out] and
    [m']. *)
Ltac mock_invert H :=
  unfold mock_az in H;
  cbn [mc_account mc_webapps mc_appsettings mc_workspaces mc_components mc_action_groups
       mc_alerts mc_diagnostics] in H;
  repeat match goal with
         | Ha : mc_account _ = Some _ |- _ => rewrite Ha in H
         end;
  cbn [mc_account mc_webapps mc_appsettings mc_workspaces mc_components mc_action_groups
       mc_alerts mc_diagnostics] in H;
  repeat match goal with
         | Hw : mc_webapps _ !! _ = Some _ |- _ => rewrite Hw in H
         end;
  rewrite ?lookup_insert_eq in H;
  injection H as <- <-.

Ltac mock_step :=
  lazymatch goal with
  | |- wp (property (Some _) _) _ _ _ =>
      eapply wp_property_some; [first [eassumption | apply lookup_insert_eq]|]; wp_simpl
  | |- wp (variable _ _) _ _ _ => eapply wp_variable_some; [reflexivity|]; wp_simpl
  | |- _ => wp_step_with mock_invert
  end.

Lemma mock_run p m acct sub w appId planId :
  mc_account m = Some acct → acct !! "name" = Some sub →
  mc_webapps m !! (ResourceGroupName p, WebAppName p) = Some w →
  w !! "id" = Some appId → w !! "appServicePlanId" = Some planId →
  exit_code (run mock_az p m) = 0
  ∧ trace (final (run mock_az p m))
    = complete_trace p appId planId (workspace_id p) (connection_string p) (action_group_id p)
  ∧ cloud (final (run mock_az p m)) = monitored p appId planId m.
Proof.
  intros Hacct Hsub Hw Hid Hplan.
  apply run_wp. repeat mock_step.
  all: leaf.
  split_and!; [done|reflexivity|]. unfold monitored. rewrite Hacct. reflexivity.
Qed.

Lemma insert_alerts_twice (l : list MetricsAlert) (A : gmap (string * string) MetricsAlert) :
  foldl insert_alert (foldl insert_alert A l) l = foldl insert_alert A l.
Proof.
  apply map_eq. intros k.
  assert (Hlookup : ∀ l' (B : gmap (string * string) MetricsAlert),
    foldl insert_alert B l' !! k
    = match last (filter (λ a, (ma_resource_group a, ma_name a) = k) l') with
      | Some a => Some a
      | None => B !! k
      end).
  { intros l'. induction l' as [|a l' IH] using rev_ind; intros B; [done|].
    rewrite foldl_app, filter_app. cbn [foldl]. unfold insert_alert at 1.
    rewrite lookup_insert. rewrite filter_cons, filter_nil.
    case_decide as Hk.
    - by rewrite last_snoc.
    - rewrite app_nil_r. apply IH. }
  rewrite !Hlookup. by destruct (last _).
Qed.

(** A complete run leaves the reference cloud as a second complete run finds
    it: running twice is running once. *)
Lemma monitored_idempotent p appId planId m :
  monitored p appId planId (monitored p appId planId m) = monitored p appId planId m.
Proof.
  unfold monitored at 1 3.
  cbn [mc_account mc_webapps mc_appsettings mc_workspaces mc_components mc_action_groups
       mc_alerts mc_diagnostics monitored].
  f_equal.
  - rewrite lookup_insert_eq. cbn [default]. rewrite insert_insert_eq.
    f_equal. unfold id. by rewrite (assoc_L (∪)), (idemp_L (∪)).
  - apply insert_insert_eq.
  - apply insert_insert_eq.
  - apply insert_insert_eq.
  - apply insert_alerts_twice.
  - apply insert_insert_eq.
Qed.

Lemma complete_trace_targets p appId planId m w :
  mc_webapps m !! (ResourceGroupName p, WebAppName p) = Some w →
  Forall (target_exists (monitored p appId planId m))
    (complete_trace p appId planId (workspace_id p) (connection_string p) (action_group_id p)).
Proof.
  intros Hw. unfold complete_trace, steps_1_to_5, expected_alerts, expected_diagnostics.
  cbn [fmap list_fmap app].
  repeat (apply Forall_cons; split;
          [cbn [target_exists monitored mc_webapps mc_workspaces mc_components
                mc_action_groups mc_alerts mc_diagnostics ma_resource_group ma_name
                ds_resource ds_name expected_alerts expected_diagnostics foldl];
           unfold insert_alert; cbn [ma_resource_group ma_name];
           rewrite ?lookup_insert; repeat case_decide; by eauto|]).
  by constructor.
Qed.

(** C5. Against the reference cloud, with the caller logged in and the
    application in place, the script run twice with the same parameters
    succeeds both times; the second run issues the same commands as the
    first, each [create] of the second run names a resource that is already
    there, and the second run leaves the cloud as it found it: it adds no
    resource. *)
Theorem rerun_idempotent p m acct sub w appId planId :
  mc_account m = Some acct → acct !! "name" = Some sub →
  mc_webapps m !! (ResourceGroupName p, WebAppName p) = Some w →
  w !! "id" = Some appId → w !! "appServicePlanId" = Some planId →
  let r1 := run mock_az p m in
  let r2 := run mock_az p (cloud (final r1)) in
  status r1 = Success ∧ status r2 = Success
  ∧ trace (final r2) = trace (final r1)
  ∧ Forall (target_exists (cloud (final r1))) (trace (final r2))
  ∧ cloud (final r2) = cloud (final r1)
  ∧ resource_count (cloud (final r2)) = resource_count (cloud (final r1)).
Proof.
  intros Hacct Hsub Hw Hid Hplan r1 r2.
  destruct (mock_run p m acct sub w appId planId) as (Hexit1 & Htrace1 & Hcloud1); try done.
  destruct (mock_run p (monitored p appId planId m) acct sub w appId planId)
    as (Hexit2 & Htrace2 & Hcloud2); try done.
  subst r1 r2. rewrite Hcloud1. unfold status.
  rewrite Hexit1, Hexit2, Htrace1, Htrace2, Hcloud2, monitored_idempotent.
  split_and!; try done. by eapply complete_trace_targets.
Qed.

(** C7. A successful run configures diagnostic forwarding with one
    [az monitor diagnostic-settings create] command: on the application, to
    the workspace that [az monitor log-analytics workspace show] printed, for
    the three log categories (HTTP logs, console logs, application logs) and
    all metrics.  The setting is named after the application, so that against
    the reference cloud a second run replaces the setting of the first: the
    diagnostic settings are the same after both runs, and one setting where
    there was none before. *)
Theorem diagnostic_forwarding {Cloud} (az : AzCommand → Cloud → option PSObject * Cloud)
    (p : Params) (c : Cloud) (m : MockCloud) acct sub w appId planId :
  (exit_code (run az p c) = 0 →
     ∃ app resource ws wsId,
       webApp (vars (final (run az p c))) = Some app ∧ app !! "id" = Some resource
       ∧ logAnalytics (vars (final (run az p c))) = Some ws ∧ ws !! "id" = Some wsId
       ∧ diagnostics_of (trace (final (run az p c))) =
           [{| ds_name := "diag-" +:+ WebAppName p;
               ds_resource := resource;
               ds_workspace := wsId;
               ds_logs := categories_json
                            ["AppServiceHTTPLogs"; "AppServiceConsoleLogs"; "AppServiceAppLogs"];
               ds_metrics := categories_json ["AllMetrics"] |}])
  ∧ (mc_account m = Some acct → acct !! "name" = Some sub →
     mc_webapps m !! (ResourceGroupName p, WebAppName p) = Some w →
     w !! "id" = Some appId → w !! "appServicePlanId" = Some planId →
     let r1 := run mock_az p m in
     let r2 := run mock_az p (cloud (final r1)) in
     mc_diagnostics (cloud (final r1)) !! (appId, "diag-" +:+ WebAppName p)
       = Some (expected_diagnostics p appId (workspace_id p))
     ∧ mc_diagnostics (cloud (final r2)) = mc_diagnostics (cloud (final r1))
     ∧ (mc_diagnostics m = ∅ → size (mc_diagnostics (cloud (final r2))) = 1%nat)).
Proof.
  split.
  - intros Hok.
    destruct (run_success az p c Hok)
      as (a0 & w0 & ws & ai & ag & appId0 & planId0 & wsId & cs & agId & cl1 & cl1' & cl2 & cl2'
          & Hvars & Hid & Hplan & Hws & Hcs & Hag & Hshow & Hagshow & Htrace).
    exists w0, appId0, ws, wsId. rewrite Hvars, Htrace. by split_and!.
  - intros Hacct Hsub Hw Hid Hplan r1 r2.
    destruct (mock_run p m acct sub w appId planId) as (Hexit1 & Htrace1 & Hcloud1); try done.
    destruct (mock_run p (monitored p appId planId m) acct sub w appId planId)
      as (Hexit2 & Htrace2 & Hcloud2); try done.
    subst r1 r2. rewrite Hcloud1, Hcloud2, monitored_idempotent.
    cbn [monitored mc_diagnostics]. split_and!; try done.
    + apply lookup_insert_eq.
    + intros ->. by rewrite insert_empty, map_size_singleton.
Qed.

End MockFacts.

(** ** The theorems at work on the example of the script's help text *)

Module Examples.
Import Monitoring Mock MonitoringFacts MockFacts.

Lemma scoping_invariant_witness :
  exit_code (run mock_az example_params example_cloud) = 0
  ∧ length (alerts_of (trace (final (run mock_az example_params example_cloud)))) = 4%nat.
Proof.
  split; [vm_compute; reflexivity|].
  destruct (scoping_invariant mock_az example_params example_cloud)
    as (w & appId & planId & cl & cl' & _ & _ & _ & _ & Hlen & _);
    [vm_compute; reflexivity|exact Hlen].
Defined.

Lemma alert_rule_table_witness :
  exit_code (run mock_az example_params example_cloud) = 0
  ∧ table_row
      <$> omap alert_rule_spec (alerts_of (trace (final (run mock_az example_params example_cloud))))
    = [("CpuPercentage", avg, ">", 80%N, 300%N, 60%N, 2);
       ("MemoryPercentage", avg, ">", 85%N, 300%N, 60%N, 2);
       ("Http5xx", total, ">", 10%N, 300%N, 60%N, 1);
       ("HttpResponseTime", avg, ">", 5%N, 300%N, 60%N, 3)].
Proof.
  split; [vm_compute; reflexivity|].
  destruct (alert_rule_table mock_az example_params example_cloud)
    as (ag & agId & cl & cl' & _ & _ & _ & _ & Htable & _);
    [vm_compute; reflexivity|exact Htable].
Defined.

Lemma precondition_failure_witness :
  (mock_az AccountShow logged_out).1 = None
  ∧ exit_code (run mock_az example_params logged_out) = 1
  ∧ status (run mock_az example_params logged_out) = Failure.
Proof.
  split; [reflexivity|].
  destruct (precondition_failure mock_az example_params logged_out)
    as (Hexit & _ & Hstatus & _); [left; reflexivity|by split].
Defined.

Lemma action_group_failure_witness :
  steps_1_to_4_succeed validating_az bad_email_params example_cloud
    (app_id "rg-myapp-dev" "webapp-myapp-dev")
    (workspace_id bad_email_params) (connection_string bad_email_params)
  ∧ output_at validating_az
      (steps_1_to_5 bad_email_params (workspace_id bad_email_params)
         (connection_string bad_email_params)) 8 example_cloud = None
  ∧ error (run validating_az bad_email_params example_cloud)
    = Some "Failed to create Action Group"
  ∧ status (run validating_az bad_email_params example_cloud) = PartialFailure
  ∧ alerts_of (trace (final (run validating_az bad_email_params example_cloud))) = [].
Proof.
  assert (Hsteps : steps_1_to_4_succeed validating_az bad_email_params example_cloud
                     (app_id "rg-myapp-dev" "webapp-myapp-dev")
                     (workspace_id bad_email_params) (connection_string bad_email_params)).
  { split_and!; [eexists|..]; apply answers_lookup; vm_compute; reflexivity. }
  split; [exact Hsteps|]. split; [vm_compute; reflexivity|].
  destruct (action_group_failure validating_az bad_email_params example_cloud
              (app_id "rg-myapp-dev" "webapp-myapp-dev")
              (workspace_id bad_email_params) (connection_string bad_email_params))
    as (Herror & _ & Hstatus & _ & _ & Halerts & _);
    [exact Hsteps|vm_compute; reflexivity|by split_and!].
Defined.

Lemma rerun_idempotent_witness :
  mc_account example_cloud = Some {["name" := "Subscription 1"]}
  ∧ mc_webapps example_cloud !! ("rg-myapp-dev", "webapp-myapp-dev")
    = Some (<["id" := app_id "rg-myapp-dev" "webapp-myapp-dev"]>
              {["appServicePlanId" := plan_id "rg-myapp-dev" "asp-myapp-dev"]})
  ∧ status (run mock_az example_params example_cloud) = Success
  ∧ cloud (final (run mock_az example_params
                    (cloud (final (run mock_az example_params example_cloud)))))
    = cloud (final (run mock_az example_params example_cloud)).
Proof.
  split; [reflexivity|]. split; [vm_compute; reflexivity|].
  destruct (rerun_idempotent example_params example_cloud
              {["name" := "Subscription 1"]} "Subscription 1"
              (<["id" := app_id "rg-myapp-dev" "webapp-myapp-dev"]>
                 {["appServicePlanId" := plan_id "rg-myapp-dev" "asp-myapp-dev"]})
              (app_id "rg-myapp-dev" "webapp-myapp-dev")
              (plan_id "rg-myapp-dev" "asp-myapp-dev"))
    as (Hs1 & _ & _ & _ & Hcloud & _);
    [reflexivity|vm_compute; reflexivity|vm_compute; reflexivity
    |vm_compute; reflexivity|vm_compute; reflexivity|by split].
Defined.

Lemma diagnostic_forwarding_witness :
  exit_code (run mock_az example_params example_cloud) = 0
  ∧ length (diagnostics_of (trace (final (run mock_az example_params example_cloud)))) = 1%nat
  ∧ size (mc_diagnostics
            (cloud (final (run mock_az example_params
                             (cloud (final (run mock_az example_params example_cloud)))))))
    = 1%nat.
Proof.
  split; [vm_compute; reflexivity|].
  destruct (diagnostic_forwarding mock_az example_params example_cloud example_cloud
              {["name" := "Subscription 1"]} "Subscription 1"
              (<["id" := app_id "rg-myapp-dev" "webapp-myapp-dev"]>
                 {["appServicePlanId" := plan_id "rg-myapp-dev" "asp-myapp-dev"]})
              (app_id "rg-myapp-dev" "webapp-myapp-dev")
              (plan_id "rg-myapp-dev" "asp-myapp-dev"))
    as [Hone Htwice].
  split.
  - destruct Hone as (? & ? & ? & ? & _ & _ & _ & _ & ->); [vm_compute; reflexivity|done].
  - apply Htwice; [reflexivity|vm_compute; reflexivity..].
Defined.

Lemma email_checked_for_emptiness_only_witness :
  arg_AlertEmailAddress empty_email_invocation = EmptyString
  ∧ trace (final (invoke mock_az empty_email_invocation example_cloud)) = []
  ∧ valid_email (arg_AlertEmailAddress bad_email_invocation) = false
  ∧ steps_1_to_4_succeed mock_az (params_of bad_email_invocation) example_cloud
      (app_id "rg-myapp-dev" "webapp-myapp-dev")
      (workspace_id bad_email_params) (connection_string bad_email_params)
  ∧ trace (final (invoke mock_az bad_email_invocation example_cloud)) !! 7%nat
    = Some (ActionGroupCreate "rg-myapp-dev" "ag-webapp-myapp-dev-alerts" "AppAlerts"
              ["email"; "AdminEmail"; "not-an-email"])
  ∧ exit_code (invoke mock_az bad_email_invocation example_cloud) = 0.
Proof.
  assert (Hsteps : steps_1_to_4_succeed mock_az (params_of bad_email_invocation) example_cloud
                     (app_id "rg-myapp-dev" "webapp-myapp-dev")
                     (workspace_id bad_email_params) (connection_string bad_email_params)).
  { split_and!; [eexists|..]; apply answers_lookup; vm_compute; reflexivity. }
  split; [reflexivity|]. split.
  { by apply (email_checked_for_emptiness_only mock_az empty_email_invocation example_cloud
                EmptyString EmptyString EmptyString EmptyString EmptyString). }
  split; [reflexivity|]. split; [exact Hsteps|].
  destruct (email_checked_for_emptiness_only mock_az bad_email_invocation example_cloud
              (app_id "rg-myapp-dev" "webapp-myapp-dev")
              (plan_id "rg-myapp-dev" "asp-myapp-dev")
              (workspace_id bad_email_params) (connection_string bad_email_params)
              (action_group_id bad_email_params)) as [_ Hrun].
  destruct Hrun as (_ & _ & _ & Hcreate & Hcomplete); [done..|].
  split; [exact (Hcreate Hsteps)|].
  apply Hcomplete; [exact Hsteps|..]; apply answers_lookup; vm_compute; reflexivity.
Defined.

(** C9, as the specification states it, fails: an address that is not valid
    is not refused.  Against a cloud that accepts it the run succeeds, all
    fourteen commands issued and the address in the action group; against a
    provider that refuses it the run fails at step 5, after nine commands. *)
Lemma invalid_email_not_refused :
  valid_email (arg_AlertEmailAddress bad_email_invocation) = false
  ∧ exit_code (invoke mock_az bad_email_invocation example_cloud) = 0
  ∧ length (trace (final (invoke mock_az bad_email_invocation example_cloud))) = 14%nat
  ∧ trace (final (invoke mock_az bad_email_invocation example_cloud)) !! 7%nat
    = Some (ActionGroupCreate "rg-myapp-dev" "ag-webapp-myapp-dev-alerts" "AppAlerts"
              ["email"; "AdminEmail"; "not-an-email"])
  ∧ error (invoke validating_az bad_email_invocation example_cloud)
    = Some "Failed to create Action Group"
  ∧ length (trace (final (invoke validating_az bad_email_invocation example_cloud))) = 9%nat.
Proof. vm_compute. by split_and!. Qed.

(** The alert rules that C8 speaks of, in the example. *)
Example four_alert_rules :
  length (alerts_of (trace (final (run mock_az example_params example_cloud)))) = 4%nat.
Proof. vm_compute. reflexivity. Qed.

End Examples.

(** ** The infrastructure deployment *)

Module InfrastructureFacts.
Import Infrastructure.

Section Calculus.
Context {Cloud : Type}.
Variable az : Command → Cloud → Z * Cloud.

Lemma infra_wp_ret {A} (a : A) Q E (s : State Cloud) : Q a s → wp (mret a) Q E s.
Proof. done. Qed.

Lemma infra_wp_exit {A} status (Q : A → State Cloud → Prop) E s :
  E status s → wp (exit status) Q E s.
Proof. done. Qed.

Lemma infra_wp_bind {A B} (m : M A) (f : A → M B) Q E (s : State Cloud) :
  wp m (λ a s', wp (f a) Q E s') E s → wp (m ≫= f) Q E s.
Proof. unfold wp, mbind, M_bind. by destruct (m s) as [[e|a] s']. Qed.

Lemma infra_wp_echo line (Q : unit → State Cloud → Prop) E s :
  Q () {| cloud := cloud s; trace := trace s; out := out s ++ [line] |} →
  wp (echo line) Q E s.
Proof. done. Qed.

Lemma infra_wp_az_status c (Q : Z → State Cloud → Prop) E s :
  (∀ status cl, az c (cloud s) = (status, cl) →
     Q status {| cloud := cl; trace := trace s ++ [c]; out := out s |}) →
  wp (az_status az c) Q E s.
Proof.
  intros H. unfold wp, az_status. destruct (az c (cloud s)) as [st cl] eqn:Heq. by apply H.
Qed.

Lemma infra_run_wp (Φ : RunResult Cloud → Prop) now c :
  wp (script az now)
     (λ _ s, Φ {| exit_code := 0; final := s |})
     (λ status s, Φ {| exit_code := status; final := s |})
     (initial c) →
  Φ (run az now c).
Proof. unfold wp, run. by destruct (script az now (initial c)) as [[e|[]] s]. Qed.

End Calculus.

(** One step of symbolic execution; [tac] is run on the equation that records
    what an [az] command did. *)
Ltac infra_step_with tac :=
  lazymatch goal with
  | |- wp (mbind _ _) _ _ _ => apply infra_wp_bind
  | |- wp (mret _) _ _ _ => apply infra_wp_ret
  | |- wp (exit _) _ _ _ => apply infra_wp_exit
  | |- wp (echo _) _ _ _ => apply infra_wp_echo
  | |- wp (az_status _ _) _ _ _ =>
      let H := fresh "Haz" in apply infra_wp_az_status; intros ? ? H; cbn [cloud] in H; tac H
  | |- wp (az_e _ _) _ _ _ => unfold az_e
  | |- wp (if bool_decide _ then _ else _) _ _ _ => case_bool_decide
  | |- wp (script _ _) _ _ _ => unfold script
  end; cbn [cloud trace out app initial].

(** Run the script symbolically: one case for each place where it can
    stop. *)
Ltac infra_run :=
  apply infra_run_wp; repeat infra_step_with ltac:(fun H => idtac);
  cbn [exit_code final cloud trace out].

Ltac infra_statuses :=
  cbn [statuses];
  repeat match goal with
         | H : _ = (_, _) |- _ => rewrite H; clear H; cbn [fst snd statuses]
         end.

Lemma to_uint_nonnil (n : N) : N.to_uint n ≠ Decimal.Nil.
Proof.
  rewrite <- (DecimalN.Unsigned.of_to n), DecimalN.Unsigned.to_of.
  apply DecimalFacts.unorm_nonnil.
Qed.

Lemma decimal_inj (a b : N) : decimal a = decimal b → a = b.
Proof.
  unfold decimal. intros H.
  apply (f_equal NilZero.uint_of_string) in H.
  rewrite !NilZero.usu in H by apply to_uint_nonnil.
  injection H as H. by apply DecimalN.Unsigned.to_uint_inj.
Qed.

Lemma WEB_APP_NAME_eq (t1 t2 : N) : WEB_APP_NAME t1 = WEB_APP_NAME t2 → t1 = t2.
Proof. unfold WEB_APP_NAME. intros H. apply append_inj_r in H. by apply decimal_inj. Qed.

(** X1. The name of the web application tells two seconds apart: run in the
    same second the script uses the same name, run in two different seconds
    it uses two different names; the name is the fixed prefix followed by
    the decimal digits of the time. *)
Theorem WEB_APP_NAME_inj (t1 t2 : N) :
  (WEB_APP_NAME t1 = WEB_APP_NAME t2 ↔ t1 = t2)
  ∧ starts_with "webapp-myapp-dev-" (WEB_APP_NAME t1) = true
  ∧ N.of_uint <$> NilZero.uint_of_string (decimal t1) = Some t1.
Proof.
  split_and!.
  - split; [apply WEB_APP_NAME_eq|by intros ->].
  - apply starts_with_append.
  - unfold decimal. rewrite NilZero.usu by apply to_uint_nonnil.
    cbn. by rewrite DecimalN.Unsigned.of_to.
Qed.

Section Runs.
Context {Cloud : Type}.
Variable az : Command → Cloud → Z * Cloud.

(** X2. When [az account show] gives a status other than 0, whatever it is,
    the script writes the hint to log in and exits with status 1; it has
    issued no other command. *)
Theorem not_logged_in now c :
  (az AccountShow c).1 ≠ 0 →
  exit_code (run az now c) = 1
  ∧ trace (final (run az now c)) = [AccountShow]
  ∧ cloud (final (run az now c)) = (az AccountShow c).2
  ∧ last (out (final (run az now c))) = Some "Please run 'az login' first".
Proof.
  intros H. infra_run;
    match goal with Hz : az AccountShow c = _ |- _ => rewrite Hz in *; cbn [fst snd] in * end;
    done.
Qed.

(** X3. [set -e]: the commands are issued in one fixed order and the script
    stops at the first one that fails.  Every run issues a non-empty prefix
    of the six commands; all but the last had status 0; if the last had
    status 0 as well, it is the sixth and the script exits with 0; if not,
    the script exits with the status of that command, or with 1 when it is
    the login check. *)
Theorem fail_fast now c :
  ∃ t cmd st,
    trace (final (run az now c)) = t ++ [cmd]
    ∧ trace (final (run az now c)) `prefix_of` complete_trace now
    ∧ statuses az (trace (final (run az now c))) c = replicate (length t) 0 ++ [st]
    ∧ ((st = 0 ∧ trace (final (run az now c)) = complete_trace now
        ∧ exit_code (run az now c) = 0)
       ∨ (st ≠ 0
          ∧ exit_code (run az now c) = if bool_decide (cmd = AccountShow) then 1 else st)).
Proof.
  infra_run;
    match goal with
    | |- ∃ t cmd st, ?l = _ ∧ _ => exists (removelast l); do 2 eexists
    end;
    (split; [cbn; reflexivity|]);
    (split; [by eexists|]);
    (split; [infra_statuses; by subst|]);
    first [by left | by right].
Qed.

(** A run that exits with 0 has issued the six commands. *)
Lemma fail_fast_complete now c :
  exit_code (run az now c) = 0 → trace (final (run az now c)) = complete_trace now.
Proof. infra_run; done. Qed.

(** X4. Two runs in different seconds that both get as far as creating the
    web application create it under two different names; the commands for
    the resource group and the plan are the same in both. *)
Theorem runs_create_distinct_apps t1 t2 c1 c2 :
  t1 ≠ t2 →
  exit_code (run az t1 c1) = 0 → exit_code (run az t2 c2) = 0 →
  take 4 (trace (final (run az t1 c1))) = take 4 (trace (final (run az t2 c2)))
  ∧ ∀ cmd, cmd ∈ drop 4 (trace (final (run az t1 c1))) →
           cmd ∉ trace (final (run az t2 c2)).
Proof.
  intros Hne H1 H2.
  rewrite (fail_fast_complete t1 c1 H1), (fail_fast_complete t2 c2 H2).
  split; [done|]. intros cmd Hin Hin2.
  assert (Hn : WEB_APP_NAME t1 ≠ WEB_APP_NAME t2) by (by intros ?%WEB_APP_NAME_eq).
  unfold complete_trace in Hin, Hin2. cbn [drop] in Hin.
  rewrite !elem_of_cons, elem_of_nil in Hin.
  rewrite !elem_of_cons, elem_of_nil in Hin2.
  destruct Hin as [->|[->|[]]];
    repeat (destruct Hin2 as [Hin2|Hin2]; [congruence|]); done.
Qed.

End Runs.

End InfrastructureFacts.

(** ** The health test and the JSON texts of the server *)

Module HealthTestFacts.
Import DemoServer HealthTest.

Lemma read_quote_char (c : ascii) (rest : string) :
  read_string (quote_char c +:+ rest)
  = match read_string rest with
    | Some (t, after) => Some (String c t, after)
    | None => None
    end.
Proof. destruct c as [[] [] [] [] [] [] [] []]; reflexivity. Qed.

Lemma read_quote_chars (s rest : string) :
  read_string (quote_chars s +:+ dquote +:+ rest) = Some (s, rest).
Proof.
  induction s as [|c s IH]; [done|].
  cbn [quote_chars]. by rewrite append_assoc, read_quote_char, IH.
Qed.

Lemma read_member_stringify (k v rest : string) :
  read_member (QuoteJSONString k +:+ ":" +:+ QuoteJSONString v +:+ rest)
  = Some ((k, v), rest).
Proof.
  unfold QuoteJSONString. rewrite !append_assoc.
  change (dquote +:+ ?x) with (String (Ascii.ascii_of_nat 34) x).
  cbn [read_member]. change (Ascii.N_of_ascii (Ascii.ascii_of_nat 34) =? 34)%N with true.
  cbv iota. rewrite read_quote_chars.
  change (":" +:+ ?x) with (String ":"%char x).
  change (dquote +:+ ?x) with (String (Ascii.ascii_of_nat 34) x).
  cbv iota beta.
  change ((Ascii.N_of_ascii ":" =? 58) && (Ascii.N_of_ascii (Ascii.ascii_of_nat 34) =? 34))%N
    with true.
  cbv iota. by rewrite read_quote_chars.
Qed.

Lemma read_members_stringify (o : list (string * string)) (fuel : nat) :
  o ≠ [] → (length o ≤ fuel)%nat →
  read_members fuel (stringify_members o +:+ "}") = Some o.
Proof.
  revert fuel. induction o as [|[k v] o IH]; intros fuel Hne Hfuel; [done|].
  destruct fuel as [|fuel]; [cbn in Hfuel; lia|].
  cbn [read_members]. destruct o as [|kv o].
  - cbn [stringify_members]. rewrite !append_assoc, read_member_stringify. done.
  - change (stringify_members ((k, v) :: kv :: o))
      with (QuoteJSONString k +:+ ":" +:+ QuoteJSONString v +:+ "," +:+
            stringify_members (kv :: o)).
    rewrite !append_assoc, read_member_stringify.
    change ("," +:+ ?x) with (String ","%char x). cbv iota beta.
    change (Ascii.N_of_ascii "," =? 125)%N with false.
    change (Ascii.N_of_ascii "," =? 44)%N with true. cbv iota.
    rewrite IH; [done|done|cbn in Hfuel |- *; lia].
Qed.

Lemma stringify_members_length (o : list (string * string)) :
  (length o ≤ String.length (stringify_members o))%nat.
Proof.
  induction o as [|[k v] o IH]; [done|].
  destruct o as [|kv o].
  - cbn [stringify_members length]. unfold QuoteJSONString. rewrite !append_length. cbn. lia.
  - change (stringify_members ((k, v) :: kv :: o))
      with (QuoteJSONString k +:+ ":" +:+ QuoteJSONString v +:+ "," +:+
            stringify_members (kv :: o)).
    rewrite !append_length. change (String.length ",") with 1%nat.
    cbn [length] in IH |- *. lia.
Qed.

Lemma parse_stringify_any (o : list (string * string)) :
  JSON_parse (JSON_stringify o) = Some o.
Proof.
  destruct o as [|[k v] o]; [done|].
  unfold JSON_stringify, JSON_parse.
  change ("{" +:+ ?x) with (String "{"%char x). cbv iota beta.
  change (Ascii.N_of_ascii "{" =? 123)%N with true. cbv iota.
  pose proof (stringify_members_length ((k, v) :: o)) as Hlen.
  destruct (stringify_members ((k, v) :: o) +:+ "}") as [|c [|c' rest]] eqn:Heq.
  - apply (f_equal String.length) in Heq. rewrite append_length in Heq. cbn in Heq. lia.
  - apply (f_equal String.length) in Heq. rewrite append_length in Heq.
    exfalso. revert Heq Hlen. clear.
    destruct o as [|kv o].
    + cbn [stringify_members]. unfold QuoteJSONString. rewrite !append_length. cbn. lia.
    + change (stringify_members ((k, v) :: kv :: o))
        with (QuoteJSONString k +:+ ":" +:+ QuoteJSONString v +:+ "," +:+
              stringify_members (kv :: o)).
      unfold QuoteJSONString. rewrite !append_length. cbn. lia.
  - rewrite <- Heq. apply read_members_stringify; [done|].
    rewrite append_length. lia.
Qed.


(** X9. The test of the health endpoint passes whatever the clock, the Node
    version and the environment are; and the time that the body carries is
    the time of the clock, character for character. *)
Theorem health_test_passes (e : Env) :
  health_test e = true
  ∧ (JSON_parse (body (handler e health_request)) ≫= λ data, get_property data "timestamp")
    = Some (timestamp e).
Proof.
  unfold health_test, handler, health_request. cbn [url].
  rewrite bool_decide_eq_true_2 by done. cbn [body statusCode].
  by rewrite parse_stringify_any.
Qed.

(** X10. Only the two exact paths are served.  A url that continues after
    [/health], by a query string or a trailing slash for instance, or that
    continues after [/] with anything but [health], is answered 404 with the
    Not Found body. *)
Theorem exact_paths_only (e : Env) (req : Request) (suffix : string) :
  suffix ≠ EmptyString →
  (url req = "/health" +:+ suffix →
     statusCode (handler e req) = 404 ∧ body (handler e req) = not_found_body)
  ∧ (suffix ≠ "health" → url req = "/" +:+ suffix →
     statusCode (handler e req) = 404 ∧ body (handler e req) = not_found_body).
Proof.
  intros Hsuffix. split.
  - intros Hurl.
    assert (H1 : url req ≠ "/health").
    { rewrite Hurl. intros H. by apply (append_inj_r "/health" suffix EmptyString) in H. }
    assert (H2 : url req ≠ "/").
    { rewrite Hurl. intros H. by apply (append_inj_r "/" ("health" +:+ suffix) EmptyString) in H. }
    unfold handler. by rewrite !bool_decide_eq_false_2 by done.
  - intros Hother Hurl.
    assert (H1 : url req ≠ "/health").
    { rewrite Hurl. intros H. by apply (append_inj_r "/" suffix "health") in H. }
    assert (H2 : url req ≠ "/").
    { rewrite Hurl. intros H. by apply (append_inj_r "/" suffix EmptyString) in H. }
    unfold handler. by rewrite !bool_decide_eq_false_2 by done.
Qed.

Lemma exact_paths_only_witness :
  "?probe=1" ≠ EmptyString
  ∧ statusCode (handler env0 {| url := "/health?probe=1"; method := "GET" |}) = 404.
Proof.
  split; [done|].
  destruct (exact_paths_only env0 {| url := "/health?probe=1"; method := "GET" |} "?probe=1")
    as [Hhealth _]; [done|].
  by destruct Hhealth.
Defined.

End HealthTestFacts.

(** ** More on the monitoring set-up *)

Module MonitoringExtras.
Import Monitoring MonitoringFacts Readings.

(** Two names that the script derives are different: they have different
    prefixes, or the same prefix and different application names. *)
Ltac name_ne :=
  let H := fresh in
  intros H; simpl in H; simplify_eq; try done;
  match goal with
  | H' : _ +:+ ?q = _ +:+ ?q |- _ => by apply append_inj_l in H'
  end.

Ltac key_ne :=
  let H := fresh in
  intros H; apply (f_equal snd) in H; cbn [snd] in H; revert H; name_ne.



Section Runs.
Context {Cloud : Type}.
Variable az : AzCommand → Cloud → option PSObject * Cloud.

(** X11. The script issues its commands in one fixed order: whatever the
    cloud answers, the commands of a run are an initial part of the fourteen
    commands of a complete run, for the identifiers that the [show] commands
    printed. *)
Theorem commands_in_order p c :
  ∃ appId planId wsId cs agId,
    trace (final (run az p c)) `prefix_of` complete_trace p appId planId wsId cs agId.
Proof.
  wp_run; leaf;
    unshelve (do 5 eexists; unfold complete_trace, steps_1_to_5, expected_alerts,
                expected_diagnostics; cbn [fmap list_fmap app]; eexists; reflexivity);
    exact EmptyString.
Qed.



(** X16. The alert rules of a run have pairwise different names, whatever
    the name of the application: none of them replaces another. *)
Theorem alert_names_differ p c :
  NoDup (ma_name <$> alerts_of (trace (final (run az p c)))).
Proof.
  wp_run; leaf; cbn;
    repeat (apply NoDup_cons; split;
            [rewrite ?elem_of_cons, elem_of_nil;
             intros H; repeat (destruct H as [H|H]; [by revert H; name_ne|]); done|]);
    apply NoDup_nil_2.
Qed.


(** Every command names the resource group of the run and creates in its
    location. *)
Lemma run_group_and_location p c :
  Forall (λ cmd, (∀ rg, resource_group_of cmd = Some rg → rg = ResourceGroupName p)
                 ∧ (∀ l, location_of cmd = Some l → l = Location p))
    (trace (final (run az p c))).
Proof.
  wp_run; leaf;
    repeat (apply Forall_cons; split; [split; cbn; intros ? [= <-]; done|]);
    by constructor.
Qed.

(** X14. The script stays in the resource group it is given and creates the
    workspace and the Application Insights component in the location it is
    given: [eastus] when [-Location] is left out, and the argument as it
    is, the empty string included, when it is not. *)
Theorem group_and_location_as_given (a : Invocation) c :
  Forall (λ cmd, (∀ rg, resource_group_of cmd = Some rg → rg = arg_ResourceGroupName a)
                 ∧ (∀ l, location_of cmd = Some l → l = default "eastus" (arg_Location a)))
    (trace (final (invoke az a c))).
Proof.
  unfold invoke, bind_parameters.
  repeat case_match; simplify_eq; cbn [final initial trace]; [by constructor..|].
  match goal with |- context [run az ?p c] => exact (run_group_and_location p c) end.
Qed.








End Runs.


Section Host.
Context {Cloud : Type}.
Variable az : AzCommand → Cloud → option PSObject * Cloud.


End Host.

End MonitoringExtras.

(** ** More on runs against the reference cloud *)

Module MockExtras.
Import Monitoring Mock MonitoringFacts MockFacts MonitoringExtras InfraMock.

Lemma alert_names_distinct p appId planId agId :
  NoDup (ma_name <$> expected_alerts p appId planId agId).
Proof.
  cbn. repeat (apply NoDup_cons; split;
               [rewrite ?elem_of_cons, elem_of_nil;
                intros H; repeat (destruct H as [H|H]; [by revert H; name_ne|]); done|]).
  apply NoDup_nil_2.
Qed.

Lemma monitored_count p appId planId m :
  mc_workspaces m = ∅ → mc_components m = ∅ → mc_action_groups m = ∅ →
  mc_alerts m = ∅ → mc_diagnostics m = ∅ →
  resource_count (monitored p appId planId m) = 8%nat.
Proof.
  intros Hws Hc Hag Ha Hd. unfold resource_count, monitored.
  cbn [mc_workspaces mc_components mc_action_groups mc_alerts mc_diagnostics].
  rewrite Hws, Hc, Hag, Ha, Hd. rewrite !insert_empty, !map_size_singleton.
  cbn [expected_alerts foldl]. unfold insert_alert. cbn [ma_resource_group ma_name].
  rewrite insert_empty.
  rewrite !map_size_insert_None, map_size_singleton; [done|..];
    rewrite ?lookup_insert_ne by key_ne;
    first [apply lookup_empty | by apply lookup_singleton_ne; key_ne].
Qed.

(** X6. Against the reference cloud, in an account with the application and
    no monitoring resource yet, a run leaves exactly eight: the workspace,
    the Application Insights component, the action group, the diagnostic
    setting and four alert rules, none of which replaces another. *)
Theorem fresh_run_creates_eight p m acct sub w appId planId :
  mc_account m = Some acct → acct !! "name" = Some sub →
  mc_webapps m !! (ResourceGroupName p, WebAppName p) = Some w →
  w !! "id" = Some appId → w !! "appServicePlanId" = Some planId →
  resource_count m = 0%nat →
  resource_count (cloud (final (run mock_az p m))) = 8%nat
  ∧ size (mc_alerts (cloud (final (run mock_az p m)))) = 4%nat
  ∧ Forall (λ a, mc_alerts (cloud (final (run mock_az p m))) !! (ma_resource_group a, ma_name a)
                 = Some a)
      (alerts_of (trace (final (run mock_az p m)))).
Proof.
  intros Hacct Hsub Hw Hid Hplan Hzero.
  destruct (mock_run p m acct sub w appId planId) as (Hexit & Htrace & Hcloud); try done.
  unfold resource_count in Hzero.
  assert (mc_workspaces m = ∅ ∧ mc_components m = ∅ ∧ mc_action_groups m = ∅
          ∧ mc_alerts m = ∅ ∧ mc_diagnostics m = ∅) as (Hws & Hc & Hag & Ha & Hd).
  { split_and!; apply map_size_empty_inv; lia. }
  rewrite Hcloud, Htrace. split; [by apply monitored_count|]. split.
  - pose proof (monitored_count p appId planId m Hws Hc Hag Ha Hd) as Hcount.
    unfold resource_count, monitored in Hcount |- *.
    cbn [mc_workspaces mc_components mc_action_groups mc_alerts mc_diagnostics] in Hcount |- *.
    rewrite Hws, Hc, Hag, Hd in Hcount.
    rewrite !insert_empty, !map_size_singleton in Hcount. lia.
  - cbn [monitored mc_alerts]. unfold complete_trace, steps_1_to_5. cbn.
    unfold insert_alert. cbn [ma_resource_group ma_name].
    repeat (apply Forall_cons; split;
            [rewrite ?lookup_insert_ne by key_ne; apply lookup_insert_eq|]).
    by constructor.
Qed.

(** X17. Runs for two applications do not touch each other's resources.
    Against the reference cloud, after a run for one application and then a
    run for another, both in place, the second run succeeds and everything
    the first run created is still there as it created it: workspace,
    component, action group, application settings, the four alert rules and
    the diagnostic setting. *)
Theorem runs_for_two_apps pa pb m acct sub wa wb idA planA idB planB :
  WebAppName pa ≠ WebAppName pb →
  mc_account m = Some acct → acct !! "name" = Some sub →
  mc_webapps m !! (ResourceGroupName pa, WebAppName pa) = Some wa →
  wa !! "id" = Some idA → wa !! "appServicePlanId" = Some planA →
  mc_webapps m !! (ResourceGroupName pb, WebAppName pb) = Some wb →
  wb !! "id" = Some idB → wb !! "appServicePlanId" = Some planB →
  let first := cloud (final (run mock_az pa m)) in
  let second := cloud (final (run mock_az pb first)) in
  exit_code (run mock_az pb first) = 0
  ∧ is_Some (mc_workspaces first
               !! (ResourceGroupName pa, logAnalyticsName (deriveNames (WebAppName pa))))
  ∧ mc_workspaces second !! (ResourceGroupName pa, logAnalyticsName (deriveNames (WebAppName pa)))
    = mc_workspaces first !! (ResourceGroupName pa, logAnalyticsName (deriveNames (WebAppName pa)))
  ∧ mc_components second !! (ResourceGroupName pa, appInsightsName (deriveNames (WebAppName pa)))
    = mc_components first !! (ResourceGroupName pa, appInsightsName (deriveNames (WebAppName pa)))
  ∧ mc_action_groups second
      !! (ResourceGroupName pa, actionGroupName (deriveNames (WebAppName pa)))
    = mc_action_groups first
        !! (ResourceGroupName pa, actionGroupName (deriveNames (WebAppName pa)))
  ∧ mc_appsettings second !! (ResourceGroupName pa, WebAppName pa)
    = mc_appsettings first !! (ResourceGroupName pa, WebAppName pa)
  ∧ Forall (λ a, mc_alerts second !! (ma_resource_group a, ma_name a) = Some a)
      (alerts_of (trace (final (run mock_az pa m))))
  ∧ mc_diagnostics second !! (idA, "diag-" +:+ WebAppName pa)
    = mc_diagnostics first !! (idA, "diag-" +:+ WebAppName pa).
Proof.
  intros Hne Hacct Hsub Hwa HidA HplanA Hwb HidB HplanB first second.
  destruct (mock_run pa m acct sub wa idA planA) as (Hexit1 & Htrace1 & Hcloud1); try done.
  destruct (mock_run pb (monitored pa idA planA m) acct sub wb idB planB)
    as (Hexit2 & Htrace2 & Hcloud2); try done.
  subst first second. rewrite Hcloud1, Hcloud2, Htrace1.
  split; [done|].
  unfold complete_trace, steps_1_to_5.
  cbn [monitored mc_workspaces mc_components mc_action_groups mc_appsettings mc_alerts
       mc_diagnostics expected_alerts foldl deriveNames logAnalyticsName appInsightsName
       actionGroupName alerts_of omap list_omap fmap list_fmap app].
  unfold insert_alert. cbn [ma_resource_group ma_name].
  split_and!.
  - rewrite lookup_insert_eq. by eexists.
  - by rewrite lookup_insert_ne by key_ne.
  - by rewrite lookup_insert_ne by key_ne.
  - by rewrite lookup_insert_ne by key_ne.
  - by rewrite lookup_insert_ne by key_ne.
  - cbn.
    repeat (apply Forall_cons; split;
            [cbn [ma_resource_group ma_name];
             rewrite ?lookup_insert_ne by key_ne; apply lookup_insert_eq|]).
    by constructor.
  - by rewrite lookup_insert_ne by key_ne.
Qed.

Lemma fresh_run_creates_eight_witness :
  resource_count example_cloud = 0%nat
  ∧ resource_count (cloud (final (run mock_az example_params example_cloud))) = 8%nat.
Proof.
  split; [reflexivity|].
  apply (fresh_run_creates_eight example_params example_cloud
           {["name" := "Subscription 1"]} "Subscription 1"
           (<["id" := app_id "rg-myapp-dev" "webapp-myapp-dev"]>
              {["appServicePlanId" := plan_id "rg-myapp-dev" "asp-myapp-dev"]})
           (app_id "rg-myapp-dev" "webapp-myapp-dev")
           (plan_id "rg-myapp-dev" "asp-myapp-dev"));
    vm_compute; reflexivity.
Defined.

Lemma runs_for_two_apps_witness :
  WebAppName example_params ≠ WebAppName second_params
  ∧ exit_code
      (run mock_az second_params
         (cloud (final (run mock_az example_params two_apps_cloud)))) = 0.
Proof.
  split; [by vm_compute|].
  apply (runs_for_two_apps example_params second_params two_apps_cloud
           {["name" := "Subscription 1"]} "Subscription 1"
           (<["id" := app_id "rg-myapp-dev" "webapp-myapp-dev"]>
              {["appServicePlanId" := plan_id "rg-myapp-dev" "asp-myapp-dev"]})
           (<["id" := app_id "rg-myapp-dev" "webapp-other"]>
              {["appServicePlanId" := plan_id "rg-myapp-dev" "asp-myapp-dev"]})
           (app_id "rg-myapp-dev" "webapp-myapp-dev") (plan_id "rg-myapp-dev" "asp-myapp-dev")
           (app_id "rg-myapp-dev" "webapp-other") (plan_id "rg-myapp-dev" "asp-myapp-dev"));
    by vm_compute.
Defined.

End MockExtras.

(** ** The two scripts one after the other *)

Module DeploymentFacts.
Import Monitoring Mock MonitoringFacts MockFacts MockExtras InfraMock.

(** Read an equation [infra_az c m = (status, m')] as the values of [status]
    and [m']. *)
Ltac infra_invert H :=
  unfold infra_az in H;
  cbn [ic_groups ic_plans ic_https_only ic_monitor add_webapp mc_account mc_webapps] in H;
  repeat match goal with
         | Ha : mc_account _ = Some _ |- _ => rewrite Ha in H
         end;
  rewrite ?lookup_insert_eq in H;
  injection H as <- <-.

Lemma infra_run_logged_in now m acct :
  mc_account (ic_monitor m) = Some acct →
  Infrastructure.exit_code (Infrastructure.run infra_az now m) = 0
  ∧ Infrastructure.trace (Infrastructure.final (Infrastructure.run infra_az now m))
    = Infrastructure.complete_trace now
  ∧ Infrastructure.cloud (Infrastructure.final (Infrastructure.run infra_az now m))
    = deployed now m.
Proof.
  intros Hacct. apply InfrastructureFacts.infra_run_wp.
  repeat InfrastructureFacts.infra_step_with infra_invert;
    cbn [Infrastructure.exit_code Infrastructure.final Infrastructure.cloud
         Infrastructure.trace];
    done.
Qed.

Lemma deployed_twice now m : deployed now (deployed now m) = deployed now m.
Proof.
  unfold deployed, add_webapp.
  cbn [ic_groups ic_plans ic_https_only ic_monitor mc_account mc_webapps mc_appsettings
       mc_workspaces mc_components mc_action_groups mc_alerts mc_diagnostics].
  by rewrite !insert_insert_eq.
Qed.

(** X18. [infrastructure.sh] can be run again: in an account where it ran
    once, a second run succeeds and finds the resource group and the plan in
    place, one of each after both runs.  Run in the same second it leaves
    the account as it was; run in another second it adds a second web
    application to the plan. *)
Theorem deployments_accumulate t1 t2 subscription :
  let first := Infrastructure.cloud (Infrastructure.final
                 (Infrastructure.run infra_az t1 (empty_account subscription))) in
  let second := Infrastructure.cloud (Infrastructure.final
                  (Infrastructure.run infra_az t2 first)) in
  Infrastructure.exit_code (Infrastructure.run infra_az t2 first) = 0
  ∧ size (ic_groups second) = 1%nat ∧ size (ic_plans second) = 1%nat
  ∧ size (mc_webapps (ic_monitor second)) = (if bool_decide (t1 = t2) then 1 else 2)%nat
  ∧ (t1 = t2 → second = first).
Proof.
  intros first second.
  destruct (infra_run_logged_in t1 (empty_account subscription) {["name" := subscription]})
    as (_ & _ & Hfirst); [done|].
  destruct (infra_run_logged_in t2 (deployed t1 (empty_account subscription))
              {["name" := subscription]}) as (Hexit & _ & Hsecond); [done|].
  subst first second. rewrite Hfirst, Hsecond. split; [done|].
  split_and!.
  - cbn [deployed ic_groups empty_account].
    by rewrite insert_insert_eq, insert_empty, map_size_singleton.
  - cbn [deployed ic_plans empty_account].
    by rewrite insert_insert_eq, insert_empty, map_size_singleton.
  - cbn [deployed ic_monitor add_webapp mc_webapps empty_account].
    case_bool_decide as Ht.
    + subst. by rewrite insert_insert_eq, insert_empty, map_size_singleton.
    + rewrite map_size_insert_None, insert_empty, map_size_singleton; [done|].
      rewrite insert_empty. apply lookup_singleton_ne.
      intros H. apply (f_equal snd) in H. cbn [snd] in H.
      apply InfrastructureFacts.WEB_APP_NAME_eq in H. congruence.
  - intros ->. apply deployed_twice.
Qed.





Lemma not_logged_in_witness :
  (infra_az Infrastructure.AccountShow nobody).1 ≠ 0
  ∧ Infrastructure.exit_code (Infrastructure.run infra_az 1764619174 nobody) = 1.
Proof.
  split; [by vm_compute|].
  destruct (InfrastructureFacts.not_logged_in infra_az 1764619174 nobody) as [Hexit _];
    [by vm_compute|exact Hexit].
Defined.

Lemma runs_create_distinct_apps_witness :
  (1764619174 ≠ 1764619175)%N
  ∧ take 4 (Infrastructure.trace (Infrastructure.final
              (Infrastructure.run infra_az 1764619174 (empty_account "Subscription 1"))))
    = take 4 (Infrastructure.trace (Infrastructure.final
                (Infrastructure.run infra_az 1764619175 (empty_account "Subscription 1")))).
Proof.
  split; [done|].
  destruct (InfrastructureFacts.runs_create_distinct_apps infra_az 1764619174 1764619175
              (empty_account "Subscription 1") (empty_account "Subscription 1"))
    as [Hsame _]; [done|vm_compute; reflexivity|vm_compute; reflexivity|exact Hsame].
Defined.

End DeploymentFacts.
